(** * parsers/NZ.py: price and production parsers for New Zealand

    A shallow embedding of [parsers/NZ.py] and the properties of its
    normalisation logic: the scan of the [<script>] elements in [fetch], the
    filtered average and the timestamp choice of [fetch_price], the category
    look-ups of [fetch_production], and the two timestamp conversions
    ([datetime.strptime] with the format [%Y-%m-%dT%H:%M:%SZ], and
    [datetime.fromtimestamp] with [tz=timezone.utc]).

    Python values are an inductive type, dictionaries are finite maps with
    string keys, exceptions are an error type, and the one effect the parsers
    have on the outside world (the HTTP request) is a trace threaded through a
    state-and-exception monad.  Floats are the kernel's binary64 floats, which
    is also what a Python [float] is.  Text written to standard output by the
    debugging blocks is not modelled; the calls those blocks make are, since
    they can raise. *)

From Stdlib Require Import ZArith Lia String Ascii.
From Stdlib Require Import Floats.PrimFloat Floats.SpecFloat Floats.FloatOps.
From stdpp Require Import base option list gmap strings.

Set Warnings "-register-all".
Local Open Scope string_scope.
Local Open Scope list_scope.
Local Open Scope Z_scope.

(** ** Python values and exceptions *)

(** The values a decoded JSON document is made of ([None], [bool], [int],
    [float], [str], [list], [dict] with string keys). *)
Inductive value : Type :=
| VNone
| VBool (b : bool)
| VInt (z : Z)
| VFloat (f : float)
| VStr (s : string)
| VList (l : list value)
| VDict (d : gmap string value).

(** The exception classes the module can raise, by their Python names.
    [ParserError] is arrow's, [JSONDecodeError] is json's (which can also
    raise [ValueError], on an integer of too many digits, and
    [RecursionError], on a document nested too deep), [RequestException]
    stands for any failure of the transport.  The classes are kept apart:
    that [JSONDecodeError] and [ParserError] derive from [ValueError], and
    [UnboundLocalError] from [NameError], plays no part below. *)
Inductive exn : Type :=
| NotImplementedError
| ZeroDivisionError
| OverflowError
| UnboundLocalError
| ValueError
| TypeError
| KeyError
| IndexError
| AttributeError
| OSError
| JSONDecodeError
| RecursionError
| ParserError
| RequestException.

(** [issubclass(e, ArithmeticError)] in Python's built-in hierarchy. *)
Definition is_arithmetic_error (e : exn) : bool :=
  match e with
  | ZeroDivisionError | OverflowError => true
  | _ => false
  end.

Inductive result (A : Type) : Type :=
| Ok (a : A)
| Raise (e : exn).
Arguments Ok {A} a.
Arguments Raise {A} e.

#[global] Instance result_ret : MRet result := fun _ a => Ok a.
#[global] Instance result_bind : MBind result := fun _ _ f m =>
  match m with
  | Ok a => f a
  | Raise e => Raise e
  end.

Definition of_option {A} (o : option A) (e : exn) : result A :=
  match o with
  | Some a => Ok a
  | None => Raise e
  end.

(** [for x in xs: st = step st x], stopping at the first exception. *)
Fixpoint for_each {S A} (step : S -> A -> result S) (xs : list A) (st : S)
  : result S :=
  match xs with
  | [] => Ok st
  | x :: xs' => st' ← step st x; for_each step xs' st'
  end.

(** *** Strings

    A [str] is held as the UTF-8 encoding of its text, which is how the
    string literals of this file are written: one byte for a character
    below U+0080, up to four bytes for the others.  [characters] gives back
    the characters of the text, each with its bytes and its code point.  A
    byte that belongs to no encoding stands for the code point U+DC00 + byte,
    as the error handler [surrogateescape] has it: no [str] that comes out
    of a JSON document has such a byte. *)

Definition code (c : ascii) : Z := Z.of_N (N_of_ascii c).

(** A byte [10xxxxxx]. *)
Definition continuation (c : ascii) : bool :=
  (128 <=? code c) && (code c <? 192).

(** A byte that belongs to no encoding, as a character. *)
Definition stray (b : ascii) : string * Z :=
  (String b EmptyString, 56320 + code b).

Fixpoint characters (s : string) : list (string * Z) :=
  match s with
  | EmptyString => []
  | String b0 s1 =>
      if code b0 <? 128 then
        (String b0 EmptyString, code b0) :: characters s1
      else
        match s1 with
        | String b1 s2 =>
            if (192 <=? code b0) && (code b0 <? 224) && continuation b1
            then
              (String b0 (String b1 EmptyString),
               (code b0 - 192) * 64 + (code b1 - 128)) :: characters s2
            else
              match s2 with
              | String b2 s3 =>
                  if (224 <=? code b0) && (code b0 <? 240)
                     && continuation b1 && continuation b2
                  then
                    (String b0 (String b1 (String b2 EmptyString)),
                     ((code b0 - 224) * 64 + (code b1 - 128)) * 64
                     + (code b2 - 128)) :: characters s3
                  else
                    match s3 with
                    | String b3 s4 =>
                        if (240 <=? code b0) && (code b0 <? 248)
                           && continuation b1 && continuation b2
                           && continuation b3
                        then
                          (String b0 (String b1 (String b2
                                     (String b3 EmptyString))),
                           (((code b0 - 240) * 64 + (code b1 - 128)) * 64
                            + (code b2 - 128)) * 64 + (code b3 - 128))
                            :: characters s4
                        else stray b0 :: characters s1
                    | EmptyString => stray b0 :: characters s1
                    end
              | EmptyString => stray b0 :: characters s1
              end
        | EmptyString => stray b0 :: characters s1
        end
  end.

(** The code points of the characters of a string. *)
Definition code_points (s : string) : list Z := (characters s).*2.

(** *** Operations on values *)

(** [v.get(k)]: only a [dict] has the method. *)
Definition py_get (v : value) (k : string) : result value :=
  match v with
  | VDict d => Ok (default VNone (d !! k))
  | _ => Raise AttributeError
  end.

(** [v.get(k, dflt)]. *)
Definition py_get_default (v : value) (k : string) (dflt : value)
  : result value :=
  match v with
  | VDict d => Ok (default dflt (d !! k))
  | _ => Raise AttributeError
  end.

(** [v[k]] for a string [k]. *)
Definition py_getitem (v : value) (k : string) : result value :=
  match v with
  | VDict d => of_option (d !! k) KeyError
  | _ => Raise TypeError
  end.

(** The characters of a string, each as a one-character [str]. *)
Definition chars (s : string) : list value :=
  (λ c, VStr c.1) <$> characters s.

(** [iter(v)], as the list of the items it yields.  A [dict] yields its keys;
    the map forgets their insertion order, which nothing here observes (every
    key is a [str], on which the loop body of [fetch_price] raises at once). *)
Definition py_iter (v : value) : result (list value) :=
  match v with
  | VList l => Ok l
  | VStr s => Ok (chars s)
  | VDict d => Ok (VStr <$> (map_to_list d).*1)
  | _ => Raise TypeError
  end.

(** ** [datetime] *)

(** The only [tzinfo] the module uses is [timezone.utc]. *)
Inductive tzinfo : Type := utc.

Record datetime : Type := mk_datetime {
  dt_year : Z;
  dt_month : Z;
  dt_day : Z;
  dt_hour : Z;
  dt_minute : Z;
  dt_second : Z;
  dt_microsecond : Z;
  dt_tzinfo : option tzinfo;
}.

(** [d.replace(tzinfo=tz)] *)
Definition replace_tzinfo (d : datetime) (tz : tzinfo) : datetime :=
  mk_datetime (dt_year d) (dt_month d) (dt_day d) (dt_hour d) (dt_minute d)
    (dt_second d) (dt_microsecond d) (Some tz).

Module Calendar.

Definition is_leap (y : Z) : bool :=
  (y mod 4 =? 0) && (negb (y mod 100 =? 0) || (y mod 400 =? 0)).

Definition days_in_month (y m : Z) : Z :=
  if m =? 2 then (if is_leap y then 29 else 28)
  else if (m =? 4) || (m =? 6) || (m =? 9) || (m =? 11) then 30
  else 31.

(** Days from 1970-01-01 to the proleptic Gregorian date [y-m-d]. *)
Definition days_from_civil (y m d : Z) : Z :=
  let y' := if m <=? 2 then y - 1 else y in
  let era := y' / 400 in
  let yoe := y' - era * 400 in
  let mp := if m <=? 2 then m + 9 else m - 3 in
  let doy := (153 * mp + 2) / 5 + d - 1 in
  let doe := yoe * 365 + yoe / 4 - yoe / 100 + doy in
  era * 146097 + doe - 719468.

(** The proleptic Gregorian date that lies [z] days after 1970-01-01. *)
Definition civil_from_days (z : Z) : Z * Z * Z :=
  let z' := z + 719468 in
  let era := z' / 146097 in
  let doe := z' - era * 146097 in
  let yoe := (doe - doe / 1460 + doe / 36524 - doe / 146096) / 365 in
  let doy := doe - (365 * yoe + yoe / 4 - yoe / 100) in
  let mp := (5 * doy + 2) / 153 in
  let d := doy - (153 * mp + 2) / 5 + 1 in
  let m := if mp <? 10 then mp + 3 else mp - 9 in
  (if m <=? 2 then yoe + era * 400 + 1 else yoe + era * 400, m, d).

End Calendar.

(** The constructor [datetime(y, m, d, H, M, S)]: a naive datetime, or
    [ValueError] when a field is out of range. *)
Definition datetime_new (y m d H M S : Z) : result datetime :=
  if (1 <=? y) && (y <=? 9999) && (1 <=? m) && (m <=? 12) &&
     (1 <=? d) && (d <=? Calendar.days_in_month y m) &&
     (0 <=? H) && (H <=? 23) && (0 <=? M) && (M <=? 59) &&
     (0 <=? S) && (S <=? 59)
  then Ok (mk_datetime y m d H M S 0 None)
  else Raise ValueError.

(** The instant an aware datetime denotes, in microseconds since the epoch
    ([None] for a naive one, whose instant depends on the local zone). *)
Definition utc_instant (d : datetime) : option Z :=
  match dt_tzinfo d with
  | Some utc =>
      Some ((((Calendar.days_from_civil (dt_year d) (dt_month d) (dt_day d) * 24
               + dt_hour d) * 60 + dt_minute d) * 60 + dt_second d) * 1000000
            + dt_microsecond d)
  | None => None
  end.

(** *** [datetime.fromtimestamp(ts, tz=timezone.utc)] *)

(** For an [int]: the conversion to [time_t], then [gmtime_r], then the
    datetime constructor (CPython on a platform with a 64-bit [time_t] and a
    32-bit [int] for [tm_year]). *)
Definition fromtimestamp_int (t : Z) : result datetime :=
  if negb ((- 2 ^ 63 <=? t) && (t <? 2 ^ 63)) then Raise OverflowError
  else
    let '(y, m, d) := Calendar.civil_from_days (t / 86400) in
    let s := t mod 86400 in
    if negb ((- 2 ^ 31 <=? y - 1900) && (y - 1900 <? 2 ^ 31))
    then Raise OSError
    else if negb ((1 <=? y) && (y <=? 9999)) then Raise ValueError
    else Ok (mk_datetime y m d (s / 3600) (s mod 3600 / 60) (s mod 60) 0
               (Some utc)).

(** *** [datetime.strptime]

    [_strptime] turns the format into a regular expression, one named group
    per directive, compiles it with [re.IGNORECASE], matches it against the
    start of the data and then requires the match to cover the whole string.
    The model covers the directives [%Y %m %d %H %M %S] and literal characters
    that are printable ASCII.  The data is matched character by character,
    on its code points. *)
Module Strptime.

Inductive field : Type := FY | Fm | Fd | FH | FM | FS.

(** A character class: [[lo-hi]] between two ASCII characters, or [\d]. *)
Inductive atom : Type :=
| Range (lo hi : ascii)
| Decimal.

(** A piece of the compiled pattern: a named group, which is a list of
    alternatives tried in order, each a sequence of classes; or one literal
    character, matched without regard to case. *)
Inductive piece : Type :=
| Group (f : field) (alts : list (list atom))
| Lit (c : ascii).

(** The decimal digits (the characters of category Nd) come in runs of ten,
    from the digit zero to the digit nine of a script.  These are the code
    points of the zeros in Unicode 14.0, the version of CPython 3.11: the
    ASCII digits first, then among others the Arabic-Indic digits (U+0660)
    and the fullwidth digits (U+FF10). *)
Definition decimal_blocks : list Z :=
  [48; 1632; 1776; 1984; 2406; 2534; 2662; 2790; 2918; 3046; 3174; 3302;
   3430; 3558; 3664; 3792; 3872; 4160; 4240; 6112; 6160; 6470; 6608;
   6784; 6800; 6992; 7088; 7232; 7248; 42528; 43216; 43264; 43472;
   43504; 43600; 44016; 65296; 66720; 68912; 69734; 69872; 69942; 70096;
   70384; 70736; 70864; 71248; 71360; 71472; 71904; 72016; 72784; 73040;
   73120; 92768; 92864; 93008; 120782; 120792; 120802; 120812; 120822;
   123200; 123632; 125264; 130032].

Fixpoint digit_value_in (blocks : list Z) (c : Z) : option Z :=
  match blocks with
  | [] => None
  | b :: blocks' =>
      if (b <=? c) && (c <? b + 10) then Some (c - b)
      else digit_value_in blocks' c
  end.

(** The value of a decimal digit.  The pattern is a [str] compiled without
    [re.ASCII], so [\d] matches every character that has one, and [int]
    reads them all. *)
Definition decimal_value (c : Z) : option Z :=
  digit_value_in decimal_blocks c.

Definition in_atom (a : atom) (c : Z) : bool :=
  match a with
  | Range lo hi => (code lo <=? c) && (c <=? code hi)
  | Decimal => match decimal_value c with Some _ => true | None => false end
  end.

Definition rng (lo hi : ascii) : atom := Range lo hi.
Definition chr (c : ascii) : atom := Range c c.

(** The groups of [TimeRE]. *)
Definition directive (c : ascii) : option piece :=
  if (c =? "Y")%char then Some (Group FY [[Decimal; Decimal; Decimal; Decimal]])
  else if (c =? "m")%char then
    Some (Group Fm [[chr "1"; rng "0" "2"]; [chr "0"; rng "1" "9"];
                    [rng "1" "9"]])
  else if (c =? "d")%char then
    Some (Group Fd [[chr "3"; rng "0" "1"]; [rng "1" "2"; Decimal];
                    [chr "0"; rng "1" "9"]; [rng "1" "9"];
                    [chr " "; rng "1" "9"]])
  else if (c =? "H")%char then
    Some (Group FH [[chr "2"; rng "0" "3"]; [rng "0" "1"; Decimal]; [Decimal]])
  else if (c =? "M")%char then
    Some (Group FM [[rng "0" "5"; Decimal]; [Decimal]])
  else if (c =? "S")%char then
    Some (Group FS [[chr "6"; rng "0" "1"]; [rng "0" "5"; Decimal]; [Decimal]])
  else None.

(** A literal character of the modelled subset: printable ASCII other than
    the blank (white space in a format stands for [\s+]). *)
Definition is_literal (c : ascii) : bool :=
  (33 <=? code c) && (code c <=? 126).

(** [TimeRE.pattern]: the list of pieces of a format, [None] when the
    format uses something outside the modelled subset. *)
Fixpoint pattern (fmt : string) : option (list piece) :=
  match fmt with
  | EmptyString => Some []
  | String c rest =>
      if (c =? "%")%char then
        match rest with
        | String k rest' =>
            g ← directive k; p ← pattern rest'; Some (g :: p)
        | EmptyString => None
        end
      else if negb (is_literal c) then None
      else p ← pattern rest; Some (Lit c :: p)
  end.

Definition to_lower (c : Z) : Z :=
  if (65 <=? c) && (c <=? 90) then c + 32 else c.

(** A literal of the pattern against a character of the data, under
    [re.IGNORECASE]: the two agree up to the case of an ASCII letter; besides,
    [i] matches the dotted capital and the dotless small i (U+0130, U+0131),
    [k] the Kelvin sign (U+212A) and [s] the long s (U+017F). *)
Definition eq_nocase (c : ascii) (c' : Z) : bool :=
  (to_lower (code c) =? to_lower c')
  || ((to_lower (code c) =? 105) && ((c' =? 304) || (c' =? 305)))
  || ((to_lower (code c) =? 107) && (c' =? 8490))
  || ((to_lower (code c) =? 115) && (c' =? 383)).

(** One alternative against a prefix of [s]: the text matched and the
    rest. *)
Fixpoint match_atoms (atoms : list atom) (s : list Z)
  : option (list Z * list Z) :=
  match atoms with
  | [] => Some ([], s)
  | a :: atoms' =>
      match s with
      | c :: s' =>
          if in_atom a c
          then '(m, r) ← match_atoms atoms' s'; Some (c :: m, r)
          else None
      | [] => None
      end
  end.

(** All the ways a group matches a prefix of [s], in the order the regular
    expression engine tries them. *)
Definition match_group (alts : list (list atom)) (s : list Z)
  : list (list Z * list Z) :=
  omap (fun atoms => match_atoms atoms s) alts.

(** [int(text)] for a text made of decimal digits after optional blanks. *)
Fixpoint py_int_from (acc : Z) (s : list Z) : Z :=
  match s with
  | [] => acc
  | c :: s' =>
      match decimal_value c with
      | Some v => py_int_from (10 * acc + v) s'
      | None => py_int_from acc s'
      end
  end.
Definition py_int (s : list Z) : Z := py_int_from 0 s.

(** The values found, with the defaults [_strptime] starts from. *)
Record found : Type := mk_found {
  year : Z; month : Z; day : Z; hour : Z; minute : Z; second : Z;
}.
Definition found_default : found := mk_found 1900 1 1 0 0 0.

Definition set_field (f : field) (v : Z) (r : found) : found :=
  match f with
  | FY => mk_found v (month r) (day r) (hour r) (minute r) (second r)
  | Fm => mk_found (year r) v (day r) (hour r) (minute r) (second r)
  | Fd => mk_found (year r) (month r) v (hour r) (minute r) (second r)
  | FH => mk_found (year r) (month r) (day r) v (minute r) (second r)
  | FM => mk_found (year r) (month r) (day r) (hour r) v (second r)
  | FS => mk_found (year r) (month r) (day r) (hour r) (minute r) v
  end.

(** All the matches of the pattern against a prefix of [s], in the order
    the backtracking engine finds them: [re.match] returns the first. *)
Fixpoint match_pattern (p : list piece) (s : list Z) (r : found)
  : list (found * list Z) :=
  match p with
  | [] => [(r, s)]
  | Lit c :: p' =>
      match s with
      | c' :: s' =>
          if eq_nocase c c' then match_pattern p' s' r else []
      | [] => []
      end
  | Group f alts :: p' =>
      mbind (M := list)
        (fun mr => match_pattern p' mr.2 (set_field f (py_int mr.1) r))
        (match_group alts s)
  end.

(** [datetime.strptime(data, fmt)]: a naive datetime.  Every failure is a
    [ValueError]: no match, unconverted data after the match, or values
    that are no date or time. *)
Definition strptime (data fmt : string) : result datetime :=
  match pattern fmt with
  | None => Raise ValueError
  | Some p =>
      match match_pattern p (code_points data) found_default with
      | [] => Raise ValueError
      | (r, []) :: _ =>
          datetime_new (year r) (month r) (day r) (hour r) (minute r)
            (second r)
      | (_, _ :: _) :: _ => Raise ValueError
      end
  end.

End Strptime.

(** [datetime.strptime(time, "%Y-%m-%dT%H:%M:%SZ").replace(tzinfo=timezone.utc)],
    the conversion [fetch_price] applies to the timestamp of a sample.
    [strptime] takes a [str] only. *)
Definition strptime_utc (time : value) : result datetime :=
  match time with
  | VStr s =>
      d ← Strptime.strptime s "%Y-%m-%dT%H:%M:%SZ";
      Ok (replace_tzinfo d utc)
  | _ => Raise TypeError
  end.

(** ** The outside world *)

(** What [requests] hands back: the body as text, and [response.json()],
    the body decoded (or the exception the decoding raises). *)
Record Response : Type := mk_response {
  text : string;
  json : result value;
}.

(** A session answers [get(url, verify=...)]. *)
Definition Session : Type := string -> bool -> result Response.

(** A [<script>] element as BeautifulSoup presents it: [attrs] (the value of a
    [data-*] attribute is a [str]) and [contents], the text nodes below it. *)
Record Tag : Type := mk_tag {
  attrs : gmap string string;
  contents : list string;
}.

(** The library functions the module calls and this development leaves
    abstract.  Every theorem holds whatever they are. *)
Record PyLib : Type := mk_pylib {
  (** [Session()], the session used when the caller passes none *)
  new_session : Session;
  (** [BeautifulSoup(text, "html.parser").find_all("script")] *)
  find_all_script : string -> list Tag;
  (** [json.loads]: the document, or the exception it raises
      ([JSONDecodeError] for a text that is no JSON; it has others) *)
  json_loads : string -> result value;
  (** [float] on a [str], [None] for [ValueError] *)
  float_of_str : string -> option float;
  (** the built-in [sum] on a non-empty list of floats (a left fold of [+]
      before Python 3.12, a compensated sum since) *)
  builtin_sum : list float -> float;
  (** [datetime.fromtimestamp(f, tz=timezone.utc)] on a [float] *)
  fromtimestamp_float : float -> result datetime;
  (** [arrow.get(time, tzinfo="UTC").datetime] *)
  arrow_get_utc : value -> result datetime;
  (** [arrow.get(str(ts), "X").datetime] *)
  arrow_get_X : value -> result datetime;
}.

(** What a call does to the world: requests sent and files written. *)
Inductive event : Type :=
| Request (url : string) (verify : bool)
| WriteFile (path : string).

(** Computations that extend the trace of events and may raise. *)
Definition M (A : Type) : Type := list event -> result A * list event.

#[global] Instance M_ret : MRet M := fun _ a tr => (Ok a, tr).
#[global] Instance M_bind : MBind M := fun _ _ f m tr =>
  match m tr with
  | (Ok a, tr') => f a tr'
  | (Raise e, tr') => (Raise e, tr')
  end.

Definition lift {A} (r : result A) : M A := fun tr => (r, tr).
Definition raise {A} (e : exn) : M A := lift (Raise e).
Definition emit (ev : event) : M unit := fun tr => (Ok tt, tr ++ [ev]).

(** [r.get(url, verify=verify)] *)
Definition http_get (r : Session) (url : string) (verify : bool) : M Response :=
  fun tr => (r url verify, tr ++ [Request url verify]).

(** ** Module constants *)

Definition time_zone : string := "Pacific/Auckland".

(** [set(range(1, 14))] *)
Definition NZ_PRICE_REGIONS : gset Z := list_to_set (seqZ 1 13).

Definition PRODUCTION_URL : string :=
  "https://www.transpower.co.nz/system-operator/live-system-and-market-data/consolidated-live-data".
Definition PRICE_URL : string :=
  "https://api.em6.co.nz/ords/em6/data_api/region/price/".

Definition print_arrow_comparison : bool := true.
Definition save_outputs : bool := false.

(** ** Built-ins *)

(** [float(n)] for an [int]: the nearest binary64 (ties to even), or
    [OverflowError] when that is not finite. *)
Definition float_of_int (n : Z) : result float :=
  match binary_normalize prec emax n 0 false with
  | S754_infinity _ => Raise OverflowError
  | sf => Ok (SF2Prim sf)
  end.

(** [float(v)] *)
Definition py_float (L : PyLib) (v : value) : result float :=
  match v with
  | VBool b => Ok (if b then 1%float else 0%float)
  | VInt n => float_of_int n
  | VFloat f => Ok f
  | VStr s => of_option (float_of_str L s) ValueError
  | VNone | VList _ | VDict _ => Raise TypeError
  end.

(** [x in s] for a set [s] of ints: a list or a dict cannot be hashed; a bool
    or a float is a member when it equals a member ([True == 1], [2.0 == 2]).
    The comparison of a float with a member goes through the float of the
    member, which is exact below 2^53, as the region numbers are. *)
Definition py_in (x : value) (s : gset Z) : result bool :=
  match x with
  | VNone | VStr _ => Ok false
  | VBool b => Ok (bool_decide ((if b then 1 else 0) ∈ s))
  | VInt n => Ok (bool_decide (n ∈ s))
  | VFloat f =>
      Ok (existsb
            (fun n => match float_of_int n with
                      | Ok g => PrimFloat.eqb f g
                      | Raise _ => false
                      end)
            (elements s))
  | VList _ | VDict _ => Raise TypeError
  end.

(** [sum(xs) / len(xs)] for a list of floats.  On the empty list it is the
    integer division [0 / 0]. *)
Definition average (L : PyLib) (xs : list float) : result float :=
  match xs with
  | [] => Raise ZeroDivisionError
  | _ :: _ =>
      n ← float_of_int (Z.of_nat (length xs));
      Ok (PrimFloat.div (builtin_sum L xs) n)
  end.

(** [datetime.fromtimestamp(ts, tz=timezone.utc)] *)
Definition fromtimestamp_utc (L : PyLib) (ts : value) : result datetime :=
  match ts with
  | VInt t => fromtimestamp_int t
  | VBool b => fromtimestamp_int (if b then 1 else 0)
  | VFloat f => fromtimestamp_float L f
  | VNone | VStr _ | VList _ | VDict _ => Raise TypeError
  end.

(** ** [fetch] *)

(** Truth value of [item.attrs.get("data-drupal-selector")]: [None] and the
    empty string are false. *)
Definition has_selector (item : Tag) : bool :=
  match attrs item !! "data-drupal-selector" with
  | Some EmptyString | None => false
  | Some (String _ _) => true
  end.

(** The body of the loop over the [<script>] elements; the state is the
    variable [obj], [None] while it is unbound. *)
Definition fetch_step (L : PyLib) (obj : option value) (item : Tag)
  : result (option value) :=
  if has_selector item then
    body ← of_option (head (contents item)) IndexError;
    o ← json_loads L body;
    Ok (Some o)
  else Ok obj.

Definition fetch (L : PyLib) (session : option Session) : M value :=
  let r := default (new_session L) session in
  let url := PRODUCTION_URL in
  response ← http_get r url true;
  _ ← (if save_outputs then emit (WriteFile "test/mocks/NZ/response.html")
       else mret tt);
  let soup := find_all_script L (text response) in
  obj ← lift (for_each (fetch_step L) soup None);
  lift (of_option obj UnboundLocalError).

(** ** [fetch_price] *)

Record PriceRecord : Type := mk_price_record {
  price_datetime : datetime;
  price : float;
  currency : string;
  price_source : string;
  price_zoneKey : string;
}.

(** The body of the loop over [obj.get("items")]; the state is the pair of
    the variables [time] ([None] while unbound) and [region_prices]. *)
Definition price_step (L : PyLib) (st : option value * list float)
    (item : value) : result (option value * list float) :=
  region ← py_get item "grid_zone_id";
  valid ← py_in region NZ_PRICE_REGIONS;
  if (valid : bool) then
    time ← py_get item "timestamp";
    p ← py_get item "price";
    price ← py_float L p;
    Ok (Some time, st.2 ++ [price])
  else Ok st.

(** The block guarded by [print_arrow_comparison] in [fetch_price]: every
    expression it prints is [arrow.get(time, tzinfo="UTC")], its [.datetime],
    or the [strptime] conversion again. *)
Definition print_price_comparison (L : PyLib) (time : value) : result unit :=
  _ ← arrow_get_utc L time;
  _ ← strptime_utc time;
  Ok tt.

Definition fetch_price (L : PyLib) (zone_key : string)
    (session : option Session) (target_datetime : option datetime)
  : M PriceRecord :=
  match target_datetime with
  | Some _ => raise NotImplementedError
  | None =>
      let r := default (new_session L) session in
      let url := PRICE_URL in
      response ← http_get r url false;
      _ ← (if save_outputs then emit (WriteFile "test/mocks/NZ/response.json")
           else mret tt);
      obj ← lift (json response);
      items ← lift (v ← py_get obj "items"; py_iter v);
      st ← lift (for_each (price_step L) items (None, []));
      let '(time, region_prices) := st in
      avg_price ← lift (average L region_prices);
      time ← lift (of_option time UnboundLocalError);
      date_time ← lift (strptime_utc time);
      _ ← lift (if print_arrow_comparison then print_price_comparison L time
                else Ok tt);
      mret (mk_price_record date_time avg_price "NZD" "api.em6.co.nz" zone_key)
  end.

(** ** [fetch_production] *)

Record ProductionRecord : Type := mk_production_record {
  zoneKey : string;
  datetime_ : datetime;
  production : gmap string value;
  capacity : gmap string value;
  storage : gmap string value;
  source : string;
}.

(** [productions.get(name, {key: None})[key]] *)
Definition category (productions : value) (name key : string) : result value :=
  entry ← py_get_default productions name (VDict {[ key := VNone ]});
  py_getitem entry key.

(** The block guarded by [print_arrow_comparison] in [fetch_production]. *)
Definition print_production_comparison (L : PyLib) (ts : value)
  : result unit :=
  _ ← arrow_get_X L ts;
  _ ← fromtimestamp_utc L ts;
  Ok tt.

(** The dictionary built by [data = {...}]: the look-ups are made in the order
    of the source text, so the first that raises decides the exception. *)
Definition production_data (zone_key : string) (date_time : datetime)
    (productions : value) : result ProductionRecord :=
  p_coal ← category productions "Coal" "generation";
  p_oil ← category productions "Diesel/Oil" "generation";
  p_gas ← category productions "Gas" "generation";
  p_geothermal ← category productions "Geothermal" "generation";
  p_wind ← category productions "Wind" "generation";
  p_hydro ← category productions "Hydro" "generation";
  p_solar ← category productions "Solar" "generation";
  p_unknown ← category productions "Co-Gen" "generation";
  c_coal ← category productions "Coal" "capacity";
  c_oil ← category productions "Diesel/Oil" "capacity";
  c_gas ← category productions "Gas" "capacity";
  c_geothermal ← category productions "Geothermal" "capacity";
  c_wind ← category productions "Wind" "capacity";
  c_hydro ← category productions "Hydro" "capacity";
  c_solar ← category productions "Solar" "capacity";
  c_battery ← category productions "Battery" "capacity";
  c_unknown ← category productions "Co-Gen" "capacity";
  s_battery ← category productions "Battery" "generation";
  Ok (mk_production_record zone_key date_time
        (<["coal" := p_coal]> (<["oil" := p_oil]> (<["gas" := p_gas]> (
         <["geothermal" := p_geothermal]> (<["wind" := p_wind]> (
         <["hydro" := p_hydro]> (<["solar" := p_solar]> (
         <["unknown" := p_unknown]> (<["nuclear" := VInt 0]> ∅)))))))))
        (<["coal" := c_coal]> (<["oil" := c_oil]> (<["gas" := c_gas]> (
         <["geothermal" := c_geothermal]> (<["wind" := c_wind]> (
         <["hydro" := c_hydro]> (<["solar" := c_solar]> (
         <["battery storage" := c_battery]> (
         <["unknown" := c_unknown]> (<["nuclear" := VInt 0]> ∅))))))))))
        (<["battery" := s_battery]> ∅)
        "transpower.co.nz").

(** [obj["soPgenGraph"]["timestamp"]] *)
Definition payload_timestamp (obj : value) : result value :=
  g ← py_getitem obj "soPgenGraph"; py_getitem g "timestamp".

(** [obj["soPgenGraph"]["data"][region_key]] *)
Definition payload_region (obj : value) (region_key : string) : result value :=
  g ← py_getitem obj "soPgenGraph";
  d ← py_getitem g "data";
  py_getitem d region_key.

Definition fetch_production (L : PyLib) (zone_key : string)
    (session : option Session) (target_datetime : option datetime)
  : M ProductionRecord :=
  match target_datetime with
  | Some _ => raise NotImplementedError
  | None =>
      obj ← fetch L session;
      ts ← lift (payload_timestamp obj);
      date_time ← lift (fromtimestamp_utc L ts);
      _ ← lift (if print_arrow_comparison
                then print_production_comparison L ts else Ok tt);
      let region_key := "New Zealand" in
      productions ← lift (payload_region obj region_key);
      lift (production_data zone_key date_time productions)
  end.

(** ** The script entry point *)

(** The block under [if __name__ == "__main__"]: [fetch_price("NZ")], then
    [fetch_production("NZ")], each with no session and no target datetime.
    What the block prints is not modelled. *)
Definition main (L : PyLib) : M unit :=
  _ ← fetch_price L "NZ" None None;
  _ ← fetch_production L "NZ" None None;
  mret tt.

(** ** Test doubles

    Stand-ins for the library and the transport, used to run the parsers on
    concrete payloads.  They agree with the real functions on the inputs of
    the examples: a decimal numeral of at most fifteen digits is read exactly
    as [float] reads it (numerator and power of ten are both exact in
    binary64, and the division rounds once), the left fold is what [sum]
    returns on the lists summed here, and on a well-formed timestamp arrow
    returns the datetime the standard library returns. *)
Module Mock.

Definition is_digit (c : ascii) : bool :=
  (48 <=? code c) && (code c <=? 57).

(** Reads [digits] or [digits.digits]: the number without its point, and
    the count of digits after the point. *)
Fixpoint numeral (s : string) (acc : Z) (seen_point : bool) (frac : nat)
    (len : nat) : option (Z * nat * nat) :=
  match s with
  | EmptyString => Some (acc, frac, len)
  | String c s' =>
      if is_digit c then
        numeral s' (10 * acc + (code c - 48)) seen_point
          (if seen_point then S frac else frac) (S len)
      else if (c =? ".")%char && negb seen_point then
        numeral s' acc true frac len
      else None
  end.

Definition decimal (s : string) : option float :=
  match numeral s 0 false 0 0 with
  | Some (n, frac, len) =>
      if (0 <? len)%nat && (len <=? 15)%nat then
        match float_of_int n, float_of_int (10 ^ Z.of_nat frac) with
        | Ok a, Ok b => Some (PrimFloat.div a b)
        | _, _ => None
        end
      else None
  | None => None
  end.

Definition fold_sum (xs : list float) : float :=
  fold_left PrimFloat.add xs 0%float.

Definition timestamp_of_int (ts : value) : result datetime :=
  match ts with
  | VInt t => fromtimestamp_int t
  | _ => Raise ParserError
  end.

(** A library in which the page parses to [scripts] and [json.loads] knows
    the documents of [documents], any other text being no JSON. *)
Definition lib (scripts : list Tag) (documents : gmap string value)
  : PyLib := {|
  new_session := fun _ _ => Raise RequestException;
  find_all_script := fun _ => scripts;
  json_loads := fun s => of_option (documents !! s) JSONDecodeError;
  float_of_str := decimal;
  builtin_sum := fold_sum;
  fromtimestamp_float := fun _ => Raise OverflowError;
  arrow_get_utc := strptime_utc;
  arrow_get_X := timestamp_of_int;
|}.

(** A session that answers every request with one response. *)
Definition session (body : string) (decoded : result value) : Session :=
  fun _ _ => Ok (mk_response body decoded).

Definition dict (kvs : list (string * value)) : value :=
  VDict (list_to_map kvs).

Definition sample (region : Z) (timestamp price : string) : value :=
  dict [("grid_zone_id", VInt region); ("timestamp", VStr timestamp);
        ("price", VStr price)].

(** The price payload of the scenario: two samples of region 1 and one of
    region 99. *)
Definition price_items : list value :=
  [sample 1 "2024-01-01T00:00:00Z" "50.0";
   sample 1 "2024-01-01T00:05:00Z" "60.0";
   sample 99 "2024-01-01T00:05:00Z" "999.0"].

Definition price_session (items : list value) : Session :=
  session "" (Ok (dict [("items", VList items)])).

(** The production payload of the scenario: hydro only. *)
Definition production_payload : value :=
  dict [("soPgenGraph",
         dict [("timestamp", VInt 1704067200);
               ("data",
                dict [("New Zealand",
                       dict [("Hydro",
                              dict [("generation", VInt 1200);
                                    ("capacity", VInt 1500)])])])])].

Definition script (selector : option string) (body : list string) : Tag :=
  mk_tag (match selector with
          | Some v => {[ "data-drupal-selector" := v ]}
          | None => ∅
          end) body.

Definition production_lib : PyLib :=
  lib [script None ["var x = 1;"];
       script (Some "drupal-settings-json") ["{...}"]]
      {[ "{...}" := production_payload ]}.

End Mock.

(** * Vocabulary of the properties

    What the statements below are written with: the tables and predicates of
    the prose description of the parsers, and the pure parts of the functions
    above, so that a statement can speak of the payload rather than of the
    session. *)

(** ** Production *)

(** The fixed correspondence between the provider's category names and the
    keys of the output, for generation and for capacity. *)
Definition generation_categories : list (string * string) :=
  [("Coal", "coal"); ("Diesel/Oil", "oil"); ("Gas", "gas");
   ("Geothermal", "geothermal"); ("Wind", "wind"); ("Hydro", "hydro");
   ("Solar", "solar"); ("Co-Gen", "unknown")].

Definition capacity_categories : list (string * string) :=
  [("Coal", "coal"); ("Diesel/Oil", "oil"); ("Gas", "gas");
   ("Geothermal", "geothermal"); ("Wind", "wind"); ("Hydro", "hydro");
   ("Solar", "solar"); ("Battery", "battery storage"); ("Co-Gen", "unknown")].

(** The provider categories [fetch_production] reads. *)
Definition provider_categories : list string :=
  ["Coal"; "Diesel/Oil"; "Gas"; "Geothermal"; "Wind"; "Hydro"; "Solar";
   "Co-Gen"; "Battery"].

(** ** Extraction *)

(** The element carries the attribute [data-drupal-selector], with whatever
    value. *)
Definition carries_selector (item : Tag) : bool :=
  bool_decide (is_Some (attrs item !! "data-drupal-selector")).

(** [json.loads(item.contents[0])] *)
Definition script_json (L : PyLib) (item : Tag) : result value :=
  body ← of_option (head (contents item)) IndexError;
  json_loads L body.

(** Extraction as a function of the list of script elements: decode, in
    document order, every element whose selector is not empty, and keep the
    last. *)
Definition extract (L : PyLib) (soup : list Tag) : result value :=
  objs ← mapM (script_json L) (filter has_selector soup);
  of_option (last objs) UnboundLocalError.

(** ** Prices *)

(** [item.get("grid_zone_id") in regions] *)
Definition region_test (item : value) : result bool :=
  region ← py_get item "grid_zone_id"; py_in region NZ_PRICE_REGIONS.

(** The sample passes the region filter. *)
Definition valid_region (item : value) : bool :=
  match region_test item with
  | Ok true => true
  | _ => false
  end.

(** [float(item.get("price"))] *)
Definition sample_price (L : PyLib) (item : value) : result float :=
  p ← py_get item "price"; py_float L p.

(** What the loop takes from a sample that passes: timestamp and price. *)
Definition sample (L : PyLib) (item : value) : result (value * float) :=
  time ← py_get item "timestamp";
  price ← sample_price L item;
  Ok (time, price).

(** The samples of the payload: the request and the decoding that
    [fetch_price] starts with. *)
Definition price_items (L : PyLib) (session : option Session)
  : result (list value) :=
  response ← default (new_session L) session PRICE_URL false;
  obj ← json response;
  v ← py_get obj "items";
  py_iter v.

(** [fetch_price] from the loop on. *)
Definition normalize (L : PyLib) (zone_key : string) (items : list value)
  : result PriceRecord :=
  st ← for_each (price_step L) items (None, []);
  avg_price ← average L st.2;
  time ← of_option st.1 UnboundLocalError;
  date_time ← strptime_utc time;
  _ ← print_price_comparison L time;
  Ok (mk_price_record date_time avg_price "NZD" "api.em6.co.nz" zone_key).

(** ** Shapes of timestamp strings *)

(** What one character of a timestamp may be. *)
Inductive glyph : Type :=
| Digit                      (* a decimal digit, of any script *)
| Blank                      (* a space *)
| Only (c : ascii)           (* the character c *)
| NoCase (c : ascii)         (* c in upper or lower case *)
| Within (lo hi : ascii).    (* a character from lo to hi *)

#[global] Instance glyph_eq_dec : EqDecision glyph.
Proof. solve_decision. Defined.

Definition glyph_match (g : glyph) (c : Z) : bool :=
  match g with
  | Digit => Strptime.in_atom Strptime.Decimal c
  | Blank => c =? 32
  | Only c' => c =? code c'
  | NoCase c' => Strptime.eq_nocase c' c
  | Within lo hi => Strptime.in_atom (Strptime.Range lo hi) c
  end.

(** Reads a prefix of [s] that has the glyphs of [sk], one character each,
    and returns what follows it. *)
Fixpoint strip (sk : list glyph) (s : list Z) : option (list Z) :=
  match sk with
  | [] => Some s
  | g :: sk' =>
      match s with
      | c :: s' => if glyph_match g c then strip sk' s' else None
      | [] => None
      end
  end.

(** The whole of [s] has the glyphs of [sk]. *)
Definition has_shape (sk : list glyph) (s : string) : bool :=
  match strip sk (code_points s) with
  | Some [] => true
  | _ => false
  end.

(** The exact shape [YYYY-MM-DDTHH:MM:SSZ], written with the digits
    0 ... 9. *)
Definition exact_shape (s : string) : bool :=
  has_shape
    [Within "0" "9"; Within "0" "9"; Within "0" "9"; Within "0" "9";
     Only "-"; Within "0" "9"; Within "0" "9"; Only "-";
     Within "0" "9"; Within "0" "9"; Only "T";
     Within "0" "9"; Within "0" "9"; Only ":";
     Within "0" "9"; Within "0" "9"; Only ":";
     Within "0" "9"; Within "0" "9"; Only "Z"] s.

Definition one_or_two_digits : list (list glyph) := [[Digit]; [Digit; Digit]].

(** The shapes [strptime] goes by for this format: a year of four digits;
    month, hour, minute and second of one or two digits; a day of one or two
    digits, or a blank and a digit; [T] and [Z] in either case.  A digit is
    any decimal digit: the ten ASCII digits or those of another script. *)
Definition lenient_shapes : list (list glyph) :=
  m ← one_or_two_digits;
  d ← one_or_two_digits ++ [[Blank; Digit]];
  H ← one_or_two_digits;
  M ← one_or_two_digits;
  S ← one_or_two_digits;
  [[Digit; Digit; Digit; Digit; NoCase "-"] ++ m ++ [NoCase "-"] ++ d
   ++ [NoCase "T"] ++ H ++ [NoCase ":"] ++ M ++ [NoCase ":"] ++ S
   ++ [NoCase "Z"]].

Definition lenient_shape (s : string) : bool :=
  existsb (λ sk, has_shape sk s) lenient_shapes.

(** The glyph a character class of the pattern falls under. *)
Definition glyph_of_atom (a : Strptime.atom) : glyph :=
  match a with
  | Strptime.Decimal => Digit
  | Strptime.Range lo hi =>
      if (48 <=? code lo) && (code hi <=? 57) then Digit
      else if (code lo =? 32) && (code hi =? 32) then Blank
      else Within lo hi
  end.

(** The shapes a compiled pattern can match: one per choice of an
    alternative in every group. *)
Fixpoint pattern_shapes (p : list Strptime.piece) : list (list glyph) :=
  match p with
  | [] => [[]]
  | Strptime.Lit c :: p' => (λ sk, NoCase c :: sk) <$> pattern_shapes p'
  | Strptime.Group _ alts :: p' =>
      atoms ← alts; sk ← pattern_shapes p'; [(glyph_of_atom <$> atoms) ++ sk]
  end.

(** The compiled pattern of the format of [fetch_price]. *)
Definition iso_pattern : list Strptime.piece :=
  default [] (Strptime.pattern "%Y-%m-%dT%H:%M:%SZ").

(** ** Instants *)

(** The seconds since the epoch of a date and time of day. *)
Definition epoch_seconds (y m d H M S : Z) : Z :=
  ((Calendar.days_from_civil y m d * 24 + H) * 60 + M) * 60 + S.

(** ** Payloads and records *)

(** A category of the region's mapping is well formed when it is a
    dictionary that holds both figures. *)
Definition well_formed_category (entry : value) : bool :=
  match entry with
  | VDict e =>
      bool_decide (is_Some (e !! "generation"))
      && bool_decide (is_Some (e !! "capacity"))
  | _ => false
  end.

(** Every category [fetch_production] reads is missing or well formed. *)
Definition well_formed_region (d : gmap string value) : bool :=
  forallb (λ name, from_option well_formed_category true (d !! name))
    provider_categories.

(** The first and the last second [datetime] can represent:
    0001-01-01T00:00:00Z and 9999-12-31T23:59:59Z. *)
Definition MIN_TIMESTAMP : Z := -62135596800.
Definition MAX_TIMESTAMP : Z := 253402300799.

(** The fields of [d] are a date of the calendar and a time of day: the
    constructor [datetime] accepts them. *)
Definition is_calendar_datetime (d : datetime) : bool :=
  match datetime_new (dt_year d) (dt_month d) (dt_day d) (dt_hour d)
          (dt_minute d) (dt_second d) with
  | Ok _ => true
  | Raise _ => false
  end.

(** The record [r] under the zone key [z]. *)
Definition price_with_zone (z : string) (r : PriceRecord) : PriceRecord :=
  mk_price_record (price_datetime r) (price r) (currency r) (price_source r) z.

Definition production_with_zone (z : string) (r : ProductionRecord)
  : ProductionRecord :=
  mk_production_record z (datetime_ r) (production r) (capacity r)
    (storage r) (source r).

(** ** Timestamps in ISO form *)

(** The character of a decimal digit. *)
Definition digit (n : Z) : ascii := ascii_of_N (Z.to_N (48 + n)).

(** [n] in two and in four digits, padded with zeros. *)
Definition pad2 (n : Z) : string :=
  String (digit (n / 10)) (String (digit (n mod 10)) EmptyString).

Definition pad4 (n : Z) : string :=
  String (digit (n / 1000)) (String (digit (n / 100 mod 10)) (pad2 (n mod 100))).

(** The form [YYYY-MM-DDTHH:MM:SSZ] of a datetime, every field in decimal
    and padded with zeros: what [d.strftime("%Y-%m-%dT%H:%M:%SZ")] writes
    for a year of four digits, and the form in which the price payload
    gives an instant. *)
Definition isoformat_Z (d : datetime) : string :=
  String.append (pad4 (dt_year d)) (String "-"
    (String.append (pad2 (dt_month d)) (String "-"
      (String.append (pad2 (dt_day d)) (String "T"
        (String.append (pad2 (dt_hour d)) (String ":"
          (String.append (pad2 (dt_minute d)) (String ":"
            (String.append (pad2 (dt_second d)) "Z")))))))))).

(** The alternatives of the group of a directive. *)
Definition alternatives (k : ascii) : list (list Strptime.atom) :=
  match Strptime.directive k with
  | Some (Strptime.Group _ alts) => alts
  | _ => []
  end.

(** A field written in two digits is read by the first alternative of its
    group that matches, which takes both digits. *)
Definition reads_two_digits (k : ascii) (n : Z) : Prop :=
  ∀ rest, ∃ tail,
    Strptime.match_group (alternatives k) (code_points (pad2 n) ++ rest)
    = (code_points (pad2 n), rest) :: tail
    ∧ Strptime.py_int (code_points (pad2 n)) = n.

(** ** Scenarios *)

(** The session of the production scenario: the page of the system operator
    (its body is not JSON). *)
Definition scenario_page : Session :=
  Mock.session "<html>" (Raise JSONDecodeError).

(** The record the production scenario gives: hydro only, every other
    category [None], nuclear zero. *)
Definition scenario_production_record : ProductionRecord :=
  mk_production_record "NZ" (mk_datetime 2024 1 1 0 0 0 0 (Some utc))
    (list_to_map
       [("coal", VNone); ("oil", VNone); ("gas", VNone);
        ("geothermal", VNone); ("wind", VNone); ("hydro", VInt 1200);
        ("solar", VNone); ("unknown", VNone); ("nuclear", VInt 0)])
    (list_to_map
       [("coal", VNone); ("oil", VNone); ("gas", VNone);
        ("geothermal", VNone); ("wind", VNone); ("hydro", VInt 1500);
        ("solar", VNone); ("battery storage", VNone); ("unknown", VNone);
        ("nuclear", VInt 0)])
    (list_to_map [("battery", VNone)])
    "transpower.co.nz".

Definition scenario_response : Response :=
  mk_response "<html>" (Raise JSONDecodeError).

(** The script elements of that page: one without the selector, then the
    one that holds the payload. *)
Definition scenario_soup : list Tag :=
  [Mock.script None ["var x = 1;"];
   Mock.script (Some "drupal-settings-json") ["{...}"]].

(** Two pages with two script elements that carry the attribute: on the
    first the attribute of the last element is empty, on the second the text
    of the first element is not JSON. *)
Definition page_empty_selector : list Tag :=
  [Mock.script (Some "a") ["[1]"]; Mock.script (Some "") ["[2]"]].

Definition page_undecodable_first : list Tag :=
  [Mock.script (Some "a") ["oops"]; Mock.script (Some "b") ["[2]"]].

(** A page whose second selected element is not JSON: a selected element
    that decodes and an element without the selector come before it, a
    selected element that decodes comes after. *)
Definition page_undecodable_second : list Tag :=
  [Mock.script (Some "a") ["[1]"]; Mock.script None ["var x = 1;"];
   Mock.script (Some "b") ["oops"]; Mock.script (Some "c") ["[2]"]].

Definition page_documents : gmap string value :=
  {[ "[1]" := VList [VInt 1]; "[2]" := VList [VInt 2] ]}.

(** The library of the price scenario: no page, no document. *)
Definition scenario_price_lib : PyLib := Mock.lib [] ∅.

(** The price payload with a price that is no number in its second sample. *)
Definition price_items_bad_price : list value :=
  [Mock.sample 1 "2024-01-01T00:00:00Z" "50.0";
   Mock.sample 2 "2024-01-01T00:00:00Z" "n/a";
   Mock.sample 3 "2024-01-01T00:00:00Z" "60.0"].

(** A sample of region 1, as the dictionary of its fields. *)
Definition scenario_sample_fields : gmap string value :=
  list_to_map [("grid_zone_id", VInt 1);
               ("timestamp", VStr "2024-01-01T00:00:00Z");
               ("price", VStr "50.0")].

(** A production payload whose category [Gas] has no capacity. *)
Definition production_payload_no_capacity : value :=
  Mock.dict
    [("soPgenGraph",
      Mock.dict
        [("timestamp", VInt 1704067200);
         ("data",
          Mock.dict
            [("New Zealand",
              Mock.dict [("Gas", Mock.dict [("generation", VInt 300)])])])])].

(** A production payload stamped one second after 9999-12-31T23:59:59Z. *)
Definition production_payload_late : value :=
  Mock.dict
    [("soPgenGraph",
      Mock.dict [("timestamp", VInt 253402300800);
                 ("data", Mock.dict [("New Zealand", Mock.dict [])])])].

(** A library in which arrow rejects every timestamp. *)
Definition scenario_arrow_rejects (L : PyLib) : PyLib := {|
  new_session := new_session L;
  find_all_script := find_all_script L;
  json_loads := json_loads L;
  float_of_str := float_of_str L;
  builtin_sum := builtin_sum L;
  fromtimestamp_float := fromtimestamp_float L;
  arrow_get_utc := fun _ => Raise ParserError;
  arrow_get_X := fun _ => Raise ParserError;
|}.

(** A site that answers the price address with the price payload of the
    scenario and any other address with the page of the system operator,
    and the library whose default session it is. *)
Definition scenario_site : Session :=
  fun url _ =>
    if String.eqb url PRICE_URL
    then Ok (mk_response "" (Ok (Mock.dict [("items", VList Mock.price_items)])))
    else Ok scenario_response.

Definition scenario_site_lib : PyLib := {|
  new_session := scenario_site;
  find_all_script := fun _ => scenario_soup;
  json_loads := json_loads Mock.production_lib;
  float_of_str := Mock.decimal;
  builtin_sum := Mock.fold_sum;
  fromtimestamp_float := fun _ => Raise OverflowError;
  arrow_get_utc := strptime_utc;
  arrow_get_X := Mock.timestamp_of_int;
|}.

(** * Properties *)

(** ** The timestamp conversions on examples *)

Example strptime_utc_ex1 :
  strptime_utc (VStr "2024-01-01T00:05:00Z")
  = Ok (mk_datetime 2024 1 1 0 5 0 0 (Some utc)).
Proof. reflexivity. Qed.

Example strptime_utc_ex2 :
  strptime_utc (VStr "2024-02-30T00:05:00Z") = Raise ValueError.
Proof. reflexivity. Qed.

(** [\d] takes the decimal digits of any script, the explicit classes such
    as [[0-2]] the ASCII digits only: fullwidth digits make a year, an
    Arabic-Indic digit the second digit of a day, but no month; and a digit
    alone is an hour, so that two digits of another script are none. *)
Example strptime_utc_ex3 :
  code_points "２０２４" = [65298; 65296; 65298; 65300]
  ∧ strptime_utc (VStr "２０２４-01-01T00:00:00Z")
    = Ok (mk_datetime 2024 1 1 0 0 0 0 (Some utc))
  ∧ strptime_utc (VStr "2024-01-1٣T00:00:00Z")
    = Ok (mk_datetime 2024 1 13 0 0 0 0 (Some utc))
  ∧ strptime_utc (VStr "2024-０1-01T00:00:00Z") = Raise ValueError
  ∧ strptime_utc (VStr "2024-01-01T٠٠:٠٠:٠٠Z") = Raise ValueError
  ∧ strptime_utc (VStr "2024-01-01T00:00:00Ｚ") = Raise ValueError.
Proof. repeat split; reflexivity. Qed.

Example fromtimestamp_int_ex1 :
  fromtimestamp_int 1704067200 = Ok (mk_datetime 2024 1 1 0 0 0 0 (Some utc)).
Proof. reflexivity. Qed.

Example fromtimestamp_int_ex2 :
  fromtimestamp_int (-1) = Ok (mk_datetime 1969 12 31 23 59 59 0 (Some utc)).
Proof. reflexivity. Qed.

Example fromtimestamp_int_ex3 :
  fromtimestamp_int 253402300799
  = Ok (mk_datetime 9999 12 31 23 59 59 0 (Some utc))
  /\ fromtimestamp_int 253402300800 = Raise ValueError
  /\ fromtimestamp_int (-62135596800)
     = Ok (mk_datetime 1 1 1 0 0 0 0 (Some utc))
  /\ fromtimestamp_int (-62135596801) = Raise ValueError.
Proof. repeat split; reflexivity. Qed.

(** ** The calendar *)

(** Solves a goal of linear arithmetic with divisions by constants, from the
    hypotheses that are left in the context. *)
Ltac div_lia := Z.to_euclidean_division_equations; lia.

(** The day count of the date of a day count is that day count. *)
Lemma days_from_civil_from_days z :
  let '(y, m, d) := Calendar.civil_from_days z in
  Calendar.days_from_civil y m d = z.
Proof.
  unfold Calendar.civil_from_days, Calendar.days_from_civil. cbv zeta.
  set (z' := z + 719468).
  set (era := z' / 146097).
  set (doe := z' - era * 146097).
  assert (Hdoe : 0 <= doe < 146097) by (subst doe era; div_lia).
  set (yoe := (doe - doe / 1460 + doe / 36524 - doe / 146096) / 365).
  assert (Hyoe : 0 <= yoe <= 399) by (subst yoe; div_lia).
  set (doy := doe - (365 * yoe + yoe / 4 - yoe / 100)).
  assert (Hdoy : 0 <= doy <= 365) by (subst doy yoe; div_lia).
  set (mp := (5 * doy + 2) / 153).
  assert (Hmp : 0 <= mp <= 11) by (subst mp; div_lia).
  destruct (Z.ltb_spec mp 10) as [Hlt|Hge].
  - replace (mp + 3 <=? 2) with false by (symmetry; apply Z.leb_gt; lia).
    replace (yoe + era * 400) with (era * 400 + yoe) by lia.
    replace ((era * 400 + yoe) / 400) with era by div_lia.
    replace (mp + 3 - 3) with mp by lia.
    replace (era * 400 + yoe - era * 400) with yoe by lia.
    unfold doy, doe, z'. lia.
  - replace (mp - 9 <=? 2) with true by (symmetry; apply Z.leb_le; lia).
    replace (yoe + era * 400 + 1 - 1) with (era * 400 + yoe) by lia.
    replace ((era * 400 + yoe) / 400) with era by div_lia.
    replace (mp - 9 + 9) with mp by lia.
    replace (era * 400 + yoe - era * 400) with yoe by lia.
    unfold doy, doe, z'. lia.
Qed.

(** What the length of the month says about a day of the month. *)
Lemma days_in_month_bound y m d :
  1 <= m <= 12 -> 1 <= d <= Calendar.days_in_month y m ->
  d <= 31
  /\ (m = 4 \/ m = 6 \/ m = 9 \/ m = 11 -> d <= 30)
  /\ (m = 2 ->
      d <= 29
      /\ (d = 29 -> y mod 4 = 0 /\ (y mod 100 <> 0 \/ y mod 400 = 0))).
Proof.
  unfold Calendar.days_in_month, Calendar.is_leap. intros Hm Hd.
  repeat match type of Hd with
         | context [Z.eqb ?a ?b] => destruct (Z.eqb_spec a b)
         end; simpl in Hd; lia.
Qed.

(** The days before the first of each month, counted from the first of
    March. *)
Lemma month_offset mp :
  0 <= mp <= 11 ->
  (mp = 0 /\ (153 * mp + 2) / 5 = 0) \/ (mp = 1 /\ (153 * mp + 2) / 5 = 31)
  \/ (mp = 2 /\ (153 * mp + 2) / 5 = 61)
  \/ (mp = 3 /\ (153 * mp + 2) / 5 = 92)
  \/ (mp = 4 /\ (153 * mp + 2) / 5 = 122)
  \/ (mp = 5 /\ (153 * mp + 2) / 5 = 153)
  \/ (mp = 6 /\ (153 * mp + 2) / 5 = 184)
  \/ (mp = 7 /\ (153 * mp + 2) / 5 = 214)
  \/ (mp = 8 /\ (153 * mp + 2) / 5 = 245)
  \/ (mp = 9 /\ (153 * mp + 2) / 5 = 275)
  \/ (mp = 10 /\ (153 * mp + 2) / 5 = 306)
  \/ (mp = 11 /\ (153 * mp + 2) / 5 = 337).
Proof.
  intros Hmp.
  assert (Hc : mp = 0 \/ mp = 1 \/ mp = 2 \/ mp = 3 \/ mp = 4 \/ mp = 5
               \/ mp = 6 \/ mp = 7 \/ mp = 8 \/ mp = 9 \/ mp = 10 \/ mp = 11)
    by lia.
  destruct Hc as [->|[->|[->|[->|[->|[->|[->|[->|[->|[->|[->| ->]]]]]]]]]]];
    vm_compute; tauto.
Qed.

(** The date of the day count of a date of the calendar is that date. *)
Lemma civil_from_days_from_civil y m d :
  1 <= m <= 12 -> 1 <= d <= Calendar.days_in_month y m ->
  Calendar.civil_from_days (Calendar.days_from_civil y m d) = (y, m, d).
Proof.
  intros Hm Hd.
  destruct (days_in_month_bound y m d Hm Hd) as (Hd31 & Hd30 & Hfeb).
  assert (Hd1 : 1 <= d) by lia. clear Hd.
  unfold Calendar.days_from_civil. cbv zeta.
  set (y' := if m <=? 2 then y - 1 else y).
  assert (Hy' : (m <= 2 /\ y' = y - 1) \/ (2 < m /\ y' = y))
    by (subst y'; destruct (Z.leb_spec m 2); lia).
  clearbody y'.
  set (mp := if m <=? 2 then m + 9 else m - 3).
  assert (Hmp' : (m <= 2 /\ mp = m + 9) \/ (2 < m /\ mp = m - 3))
    by (subst mp; destruct (Z.leb_spec m 2); lia).
  clearbody mp.
  set (era := y' / 400).
  set (yoe := y' - era * 400).
  assert (Hyoe : 0 <= yoe <= 399) by (subst yoe era; div_lia).
  assert (Hera : y' = era * 400 + yoe) by (subst yoe; lia).
  clearbody yoe. clearbody era.
  pose proof (month_offset mp ltac:(lia)) as Hoff.
  set (off := (153 * mp + 2) / 5) in *. clearbody off.
  set (doy := off + d - 1).
  assert (Hleap : doy = 365 ->
                  yoe mod 4 = 3 /\ (yoe mod 100 <> 99 \/ yoe = 399)).
  { subst doy. intros Hx.
    assert (m = 2 /\ d = 29) as [-> ->] by lia.
    destruct Hfeb as [_ Hfeb]; [done|]. specialize (Hfeb eq_refl).
    clear - Hfeb Hy' Hera Hyoe. div_lia. }
  assert (Hdoy : 0 <= doy <= 365) by (subst doy; lia).
  assert (Hdoydef : doy = off + d - 1) by reflexivity. clearbody doy.
  set (doe := yoe * 365 + yoe / 4 - yoe / 100 + doy).
  assert (Hdoe : 0 <= doe <= 146096).
  { subst doe. clear - Hyoe Hdoy Hleap. split; [div_lia|].
    destruct (Z.eq_dec doy 365) as [He|Hne].
    - destruct (Hleap He) as [H4 H100]. div_lia.
    - div_lia. }
  unfold Calendar.civil_from_days. cbv zeta.
  replace (era * 146097 + doe - 719468 + 719468) with (era * 146097 + doe)
    by lia.
  replace ((era * 146097 + doe) / 146097) with era
    by (rewrite Z.div_add_l, Z.div_small; lia).
  replace (era * 146097 + doe - era * 146097) with doe by lia.
  assert (Hy : (doe - doe / 1460 + doe / 36524 - doe / 146096) / 365 = yoe).
  { assert (Hc : 0 <= yoe / 100 <= 3) by (clear - Hyoe; div_lia).
    assert (Hq : 0 <= yoe / 4 <= 99) by (clear - Hyoe; div_lia).
    assert (Hdoe' : doe = yoe * 365 + yoe / 4 - yoe / 100 + doy)
      by reflexivity.
    clear - Hyoe Hdoy Hleap Hc Hq Hdoe' Hdoe. clearbody doe.
    symmetry.
    apply Z.div_unique
      with (r := doe - doe / 1460 + doe / 36524 - doe / 146096 - 365 * yoe);
      [|lia].
    left. destruct (Z.eq_dec doy 365) as [He|Hne].
    - destruct (Hleap He) as [H4 H100]. clear Hleap. div_lia.
    - clear Hleap. div_lia. }
  rewrite Hy.
  replace (doe - (365 * yoe + yoe / 4 - yoe / 100)) with doy
    by (subst doe; lia).
  assert (Hmp : (5 * doy + 2) / 153 = mp).
  { clear - Hoff Hdoydef Hd1 Hd31 Hd30 Hfeb Hmp' Hm.
    symmetry. apply Z.div_unique with (r := 5 * doy + 2 - 153 * mp); lia. }
  rewrite Hmp.
  assert (Hoff2 : (153 * mp + 2) / 5 = off).
  { clear - Hoff. symmetry.
    apply Z.div_unique with (r := 153 * mp + 2 - 5 * off); lia. }
  rewrite Hoff2. clear - Hm Hy' Hmp' Hera Hdoydef.
  destruct (Z.ltb_spec mp 10) as [Hlt|Hge].
  - replace (mp + 3 <=? 2) with false by (symmetry; apply Z.leb_gt; lia).
    f_equal; [f_equal|]; lia.
  - replace (mp - 9 <=? 2) with true by (symmetry; apply Z.leb_le; lia).
    f_equal; [f_equal|]; lia.
Qed.

(** ** The two monads *)

Lemma bind_Ok {A B} (m : result A) (f : A -> result B) (b : B) :
  m ≫= f = Ok b ↔ ∃ a, m = Ok a ∧ f a = Ok b.
Proof.
  destruct m as [a|e]; simpl; split.
  - eauto.
  - by intros (? & [= <-] & ?).
  - discriminate.
  - by intros (? & [=] & ?).
Qed.

Lemma of_option_Ok {A} (o : option A) (e : exn) (a : A) :
  of_option o e = Ok a ↔ o = Some a.
Proof. destruct o; simpl; split; congruence. Qed.

Lemma M_bind_Ok {A B} (m : M A) (f : A -> M B) tr b tr' :
  (m ≫= f) tr = (Ok b, tr') ↔
  ∃ a tr1, m tr = (Ok a, tr1) ∧ f a tr1 = (Ok b, tr').
Proof.
  unfold mbind, M_bind. destruct (m tr) as [[a|e] tr1]; split.
  - eauto.
  - by intros (? & ? & [= <- <-] & ?).
  - discriminate.
  - by intros (? & ? & [=] & ?).
Qed.

Lemma lift_Ok {A} (r : result A) tr a tr' :
  lift r tr = (Ok a, tr') ↔ r = Ok a ∧ tr' = tr.
Proof. unfold lift. split; [by intros [= -> ->] | by intros [-> ->]]. Qed.

(** Peels the successful binds of the hypotheses of the form [... = Ok _]
    and [... = (Ok _, _)]. *)
Ltac inv_Ok :=
  repeat
    match goal with
    | H : (_ ≫= _) = Ok _ |- _ => apply bind_Ok in H as (? & ? & H)
    | H : (_ ≫= _) _ = (Ok _, _) |- _ =>
        apply M_bind_Ok in H as (? & ? & ? & H)
    | H : lift _ _ = (Ok _, _) |- _ => apply lift_Ok in H as [H ->]
    | H : of_option _ _ = Ok _ |- _ => apply of_option_Ok in H
    end.

(** ** [for_each]: the loops *)

Lemma for_each_app {S A} (step : S -> A -> result S) xs ys st :
  for_each step (xs ++ ys) st = (st' ← for_each step xs st; for_each step ys st').
Proof.
  revert st. induction xs as [|x xs IH]; intros st; simpl; [done|].
  destruct (step st x); simpl; [apply IH | done].
Qed.

(** ** [fetch_production]: the output record *)

Lemma category_absent (productions : gmap string value) (name key : string) :
  productions !! name = None →
  category (VDict productions) name key = Ok VNone.
Proof.
  intros Hno. unfold category. simpl. rewrite Hno. simpl.
  by rewrite lookup_singleton_eq.
Qed.

Lemma category_present (productions : gmap string value) name key entry :
  productions !! name = Some entry →
  category (VDict productions) name key = py_getitem entry key.
Proof. intros Hin. unfold category. simpl. by rewrite Hin. Qed.

Lemma category_Ok_dict productions name key v :
  category productions name key = Ok v → ∃ d, productions = VDict d.
Proof. destruct productions; try discriminate. eauto. Qed.

(** What [data = {...}] holds when it is built. *)
Lemma production_data_Ok zone_key date_time productions r :
  production_data zone_key date_time productions = Ok r →
  (∃ d, productions = VDict d)
  ∧ zoneKey r = zone_key ∧ datetime_ r = date_time
  ∧ source r = "transpower.co.nz"
  ∧ (∀ provider out, (provider, out) ∈ generation_categories →
       ∃ v, category productions provider "generation" = Ok v
            ∧ production r !! out = Some v)
  ∧ (∀ provider out, (provider, out) ∈ capacity_categories →
       ∃ v, category productions provider "capacity" = Ok v
            ∧ capacity r !! out = Some v)
  ∧ (∃ v, category productions "Battery" "generation" = Ok v
          ∧ storage r !! "battery" = Some v)
  ∧ production r !! "nuclear" = Some (VInt 0)
  ∧ capacity r !! "nuclear" = Some (VInt 0)
  ∧ dom (production r)
    = {[ "coal"; "oil"; "gas"; "geothermal"; "wind"; "hydro"; "solar";
         "unknown"; "nuclear" ]}
  ∧ dom (capacity r)
    = {[ "coal"; "oil"; "gas"; "geothermal"; "wind"; "hydro"; "solar";
         "battery storage"; "unknown"; "nuclear" ]}
  ∧ dom (storage r) = {[ "battery" ]}.
Proof.
  intros H. unfold production_data in H. inv_Ok.
  injection H as <-. simpl.
  split; [by eapply category_Ok_dict|].
  do 3 (split; [done|]).
  split.
  { intros provider out Hin. unfold generation_categories in Hin.
    repeat (apply elem_of_cons in Hin as [[= -> ->]|Hin]; [eauto|]).
    by apply elem_of_nil in Hin. }
  split.
  { intros provider out Hin. unfold capacity_categories in Hin.
    repeat (apply elem_of_cons in Hin as [[= -> ->]|Hin]; [eauto|]).
    by apply elem_of_nil in Hin. }
  split; [eauto|].
  do 2 (split; [done|]).
  rewrite !dom_insert_L, dom_empty_L.
  repeat split; set_solver.
Qed.

(** A category of the payload is well formed when it is a dictionary with
    the two figures. *)
Lemma category_total (d : gmap string value) name key :
  (∀ entry, d !! name = Some entry →
     ∃ e, entry = VDict e ∧ is_Some (e !! key)) →
  ∃ v, category (VDict d) name key = Ok v.
Proof.
  intros Hwf. destruct (d !! name) as [entry|] eqn:Hname.
  - destruct (Hwf _ eq_refl) as (e & -> & [v Hv]).
    exists v. rewrite (category_present _ _ _ _ Hname). simpl. by rewrite Hv.
  - exists VNone. by apply category_absent.
Qed.

(** The record is built whenever the categories that are present among the
    nine read are well formed: nothing else in the payload can make the
    look-ups raise. *)
Lemma production_data_total zone_key date_time (d : gmap string value) :
  (∀ name entry, name ∈ provider_categories → d !! name = Some entry →
     ∃ e, entry = VDict e
          ∧ is_Some (e !! "generation") ∧ is_Some (e !! "capacity")) →
  ∃ r, production_data zone_key date_time (VDict d) = Ok r.
Proof.
  intros Hwf.
  assert (Hcat : ∀ name key,
             name ∈ provider_categories →
             key = "generation" ∨ key = "capacity" →
             ∃ v, category (VDict d) name key = Ok v).
  { intros name key Hname Hkey. apply category_total. intros entry Hentry.
    destruct (Hwf _ _ Hname Hentry) as (e & -> & Hg & Hc).
    exists e. by destruct Hkey as [-> | ->]. }
  unfold production_data.
  repeat match goal with
         | |- context [category (VDict d) ?name ?key] =>
             let v := fresh "v" in
             let Hv := fresh "Hv" in
             destruct (Hcat name key) as [v Hv];
             [unfold provider_categories; by repeat constructor | by eauto |];
             rewrite Hv; simpl; clear Hv
         end.
  by eexists.
Qed.

(** What a successful call of [fetch_production] went through. *)
Lemma fetch_production_Ok L zone_key session target_datetime tr r tr' :
  fetch_production L zone_key session target_datetime tr = (Ok r, tr') →
  ∃ obj ts productions,
    target_datetime = None
    ∧ fetch L session tr = (Ok obj, tr')
    ∧ payload_timestamp obj = Ok ts
    ∧ fromtimestamp_utc L ts = Ok (datetime_ r)
    ∧ payload_region obj "New Zealand" = Ok (VDict productions)
    ∧ production_data zone_key (datetime_ r) (VDict productions) = Ok r.
Proof.
  intros H. unfold fetch_production in H.
  destruct target_datetime; [discriminate|].
  inv_Ok.
  match goal with
  | Hd : production_data _ _ _ = Ok r |- _ =>
      destruct (production_data_Ok _ _ _ _ Hd) as ([d ->] & _ & <- & _)
  end.
  eauto 10.
Qed.

(** And [fetch_production] returns a record whenever the page yields a
    payload whose timestamp converts (for arrow too) and whose region mapping
    is well formed in the categories read. *)
Lemma fetch_production_complete
    L zone_key session tr obj tr' ts date_time a (d : gmap string value) :
  fetch L session tr = (Ok obj, tr') →
  payload_timestamp obj = Ok ts →
  fromtimestamp_utc L ts = Ok date_time →
  arrow_get_X L ts = Ok a →
  payload_region obj "New Zealand" = Ok (VDict d) →
  (∀ name entry, name ∈ provider_categories → d !! name = Some entry →
     ∃ e, entry = VDict e
          ∧ is_Some (e !! "generation") ∧ is_Some (e !! "capacity")) →
  ∃ r, fetch_production L zone_key session None tr = (Ok r, tr').
Proof.
  intros Hfetch Hts Hdt Ha Hregion Hwf.
  destruct (production_data_total zone_key date_time d Hwf) as [r Hr].
  exists r. unfold fetch_production, mbind, M_bind, lift.
  rewrite Hfetch, Hts, Hdt. simpl.
  unfold print_production_comparison. rewrite Ha, Hdt. simpl.
  by rewrite Hregion, Hr.
Qed.

Lemma category_insert_ne (d : gmap string value) k v name key :
  k ≠ name →
  category (VDict (<[k := v]> d)) name key = category (VDict d) name key.
Proof. intros Hne. unfold category. simpl. by rewrite lookup_insert_ne. Qed.

Lemma production_data_insert_other zone_key date_time d k v :
  k ∉ provider_categories →
  production_data zone_key date_time (VDict (<[k := v]> d))
  = production_data zone_key date_time (VDict d).
Proof.
  intros Hk. unfold production_data.
  rewrite !category_insert_ne; [done|..];
    intros ->; apply Hk; unfold provider_categories; set_solver.
Qed.

(** C3.  When [fetch_production] returns a record, every output category
    whose provider category is missing from the mapping of the region
    ["New Zealand"] is present in the output with the value [None] (neither
    zero nor left out): in [production], in [capacity], and for the battery
    in [storage]. *)
Theorem fetch_production_absent_category_is_None
    L zone_key session target_datetime tr r tr' :
  fetch_production L zone_key session target_datetime tr = (Ok r, tr') →
  ∃ obj productions,
    fetch L session tr = (Ok obj, tr')
    ∧ payload_region obj "New Zealand" = Ok (VDict productions)
    ∧ (∀ provider out, (provider, out) ∈ generation_categories →
         productions !! provider = None → production r !! out = Some VNone)
    ∧ (∀ provider out, (provider, out) ∈ capacity_categories →
         productions !! provider = None → capacity r !! out = Some VNone)
    ∧ (productions !! "Battery" = None → storage r !! "battery" = Some VNone).
Proof.
  intros H.
  destruct (fetch_production_Ok _ _ _ _ _ _ _ H)
    as (obj & ts & productions & _ & Hfetch & _ & _ & Hregion & Hdata).
  destruct (production_data_Ok _ _ _ _ Hdata)
    as (_ & _ & _ & _ & Hgen & Hcap & (vb & Hvb & Hsto) & _).
  exists obj, productions. repeat split; try done.
  - intros provider out Hin Hno.
    destruct (Hgen _ _ Hin) as (v & Hv & ->).
    rewrite (category_absent _ _ _ Hno) in Hv. congruence.
  - intros provider out Hin Hno.
    destruct (Hcap _ _ Hin) as (v & Hv & ->).
    rewrite (category_absent _ _ _ Hno) in Hv. congruence.
  - intros Hno. rewrite (category_absent _ _ _ Hno) in Hvb. congruence.
Qed.

(** C8.  When [fetch_production] returns a record, its ["nuclear"] entry is
    the integer [0] in [production] and in [capacity], whatever the payload
    holds. *)
Theorem fetch_production_nuclear_is_zero
    L zone_key session target_datetime tr r tr' :
  fetch_production L zone_key session target_datetime tr = (Ok r, tr') →
  production r !! "nuclear" = Some (VInt 0)
  ∧ capacity r !! "nuclear" = Some (VInt 0).
Proof.
  intros H.
  destruct (fetch_production_Ok _ _ _ _ _ _ _ H)
    as (obj & ts & productions & _ & _ & _ & _ & _ & Hdata).
  by destruct (production_data_Ok _ _ _ _ Hdata)
    as (_ & _ & _ & _ & _ & _ & _ & Hp & Hc & _).
Qed.

(** C10.  When [fetch_production] returns a record, the keys of its three
    dictionaries are fixed: the nine categories of [production], those nine
    and ["battery storage"] for [capacity], ["battery"] alone for [storage].
    A provider category outside the ones read never shows: setting it in
    the region's mapping gives the same record. *)
Theorem fetch_production_fixed_keys
    L zone_key session target_datetime tr r tr' :
  fetch_production L zone_key session target_datetime tr = (Ok r, tr') →
  dom (production r)
  = {[ "coal"; "oil"; "gas"; "geothermal"; "wind"; "hydro"; "solar";
       "unknown"; "nuclear" ]}
  ∧ dom (capacity r)
    = {[ "coal"; "oil"; "gas"; "geothermal"; "wind"; "hydro"; "solar";
         "battery storage"; "unknown"; "nuclear" ]}
  ∧ dom (storage r) = {[ "battery" ]}
  ∧ ∃ obj productions,
      fetch L session tr = (Ok obj, tr')
      ∧ payload_region obj "New Zealand" = Ok (VDict productions)
      ∧ ∀ k v, k ∉ provider_categories →
          production_data zone_key (datetime_ r)
            (VDict (<[k := v]> productions)) = Ok r.
Proof.
  intros H.
  destruct (fetch_production_Ok _ _ _ _ _ _ _ H)
    as (obj & ts & productions & _ & Hfetch & _ & _ & Hregion & Hdata).
  destruct (production_data_Ok _ _ _ _ Hdata)
    as (_ & _ & _ & _ & _ & _ & _ & _ & _ & Hdp & Hdc & Hds).
  repeat split; try done.
  exists obj, productions. repeat split; try done.
  intros k v Hk. by rewrite production_data_insert_other.
Qed.

(** C9.  With a [target_datetime], [fetch_price] and [fetch_production]
    raise [NotImplementedError] at once: the trace of requests is the one
    the call started from, so nothing was fetched. *)
Theorem historical_request_raises_NotImplementedError
    L zone_key session (target : datetime) tr :
  fetch_price L zone_key session (Some target) tr
  = (Raise NotImplementedError, tr)
  ∧ fetch_production L zone_key session (Some target) tr
    = (Raise NotImplementedError, tr).
Proof. split; reflexivity. Qed.

Example scenario_production_run :
  fetch_production Mock.production_lib "NZ" (Some scenario_page) None []
  = (Ok scenario_production_record, [Request PRODUCTION_URL true]).
Proof. vm_compute. reflexivity. Qed.

Example scenario_production_hydro :
  production scenario_production_record !! "hydro" = Some (VInt 1200)
  ∧ production scenario_production_record !! "coal" = Some VNone
  ∧ capacity scenario_production_record !! "coal" = Some VNone
  ∧ capacity scenario_production_record !! "hydro" = Some (VInt 1500).
Proof. repeat split; reflexivity. Qed.

Lemma fetch_production_absent_category_is_None_witness :
  fetch_production Mock.production_lib "NZ" (Some scenario_page) None []
  = (Ok scenario_production_record, [Request PRODUCTION_URL true])
  ∧ ∃ obj productions,
      fetch Mock.production_lib (Some scenario_page) []
      = (Ok obj, [Request PRODUCTION_URL true])
      ∧ payload_region obj "New Zealand" = Ok (VDict productions)
      ∧ (∀ provider out, (provider, out) ∈ generation_categories →
           productions !! provider = None →
           production scenario_production_record !! out = Some VNone)
      ∧ (∀ provider out, (provider, out) ∈ capacity_categories →
           productions !! provider = None →
           capacity scenario_production_record !! out = Some VNone)
      ∧ (productions !! "Battery" = None →
         storage scenario_production_record !! "battery" = Some VNone).
Proof.
  split; [vm_compute; reflexivity|].
  apply (fetch_production_absent_category_is_None Mock.production_lib "NZ"
           (Some scenario_page) None []).
  vm_compute. reflexivity.
Defined.

Lemma fetch_production_nuclear_is_zero_witness :
  fetch_production Mock.production_lib "NZ" (Some scenario_page) None []
  = (Ok scenario_production_record, [Request PRODUCTION_URL true])
  ∧ production scenario_production_record !! "nuclear" = Some (VInt 0)
  ∧ capacity scenario_production_record !! "nuclear" = Some (VInt 0).
Proof.
  split; [vm_compute; reflexivity|].
  apply (fetch_production_nuclear_is_zero Mock.production_lib "NZ"
           (Some scenario_page) None [] _ [Request PRODUCTION_URL true]).
  vm_compute. reflexivity.
Defined.

Lemma fetch_production_fixed_keys_witness :
  fetch_production Mock.production_lib "NZ" (Some scenario_page) None []
  = (Ok scenario_production_record, [Request PRODUCTION_URL true])
  ∧ dom (production scenario_production_record)
    = {[ "coal"; "oil"; "gas"; "geothermal"; "wind"; "hydro"; "solar";
         "unknown"; "nuclear" ]}
  ∧ dom (capacity scenario_production_record)
    = {[ "coal"; "oil"; "gas"; "geothermal"; "wind"; "hydro"; "solar";
         "battery storage"; "unknown"; "nuclear" ]}
  ∧ dom (storage scenario_production_record) = {[ "battery" ]}
  ∧ ∃ obj productions,
      fetch Mock.production_lib (Some scenario_page) []
      = (Ok obj, [Request PRODUCTION_URL true])
      ∧ payload_region obj "New Zealand" = Ok (VDict productions)
      ∧ ∀ k v, k ∉ provider_categories →
          production_data "NZ" (datetime_ scenario_production_record)
            (VDict (<[k := v]> productions))
          = Ok scenario_production_record.
Proof.
  split; [vm_compute; reflexivity|].
  apply (fetch_production_fixed_keys Mock.production_lib "NZ"
           (Some scenario_page) None []).
  vm_compute. reflexivity.
Defined.

(** C6.  The two timestamp conversions meet: the string
    ["2024-01-01T00:00:00Z"] converted as [fetch_price] does, and the epoch
    integer [1704067200] converted as [fetch_production] does, give the same
    aware datetime, which denotes the instant 1704067200 s after the epoch. *)
Theorem iso_string_and_epoch_integer_same_instant (L : PyLib) :
  strptime_utc (VStr "2024-01-01T00:00:00Z")
  = Ok (mk_datetime 2024 1 1 0 0 0 0 (Some utc))
  ∧ fromtimestamp_utc L (VInt 1704067200)
    = Ok (mk_datetime 2024 1 1 0 0 0 0 (Some utc))
  ∧ utc_instant (mk_datetime 2024 1 1 0 0 0 0 (Some utc))
    = Some (1704067200 * 1000000).
Proof. repeat split; reflexivity. Qed.

(** [fromtimestamp] denotes the instant it is given. *)
Lemma fromtimestamp_int_instant t d :
  fromtimestamp_int t = Ok d → utc_instant d = Some (t * 1000000).
Proof.
  unfold fromtimestamp_int.
  destruct (negb _); [done|].
  pose proof (days_from_civil_from_days (t / 86400)) as Hdays.
  destruct (Calendar.civil_from_days (t / 86400)) as [[y m] dd].
  destruct (negb _); [done|]. destruct (negb _); [done|].
  intros [= <-]. unfold utc_instant. simpl. f_equal. rewrite Hdays.
  clear. Z.to_euclidean_division_equations. lia.
Qed.

(** Every datetime the constructor accepts is the one [fromtimestamp] gives
    back for its seconds since the epoch. *)
Lemma datetime_new_fromtimestamp y m d H M S d0 :
  datetime_new y m d H M S = Ok d0 →
  fromtimestamp_int (epoch_seconds y m d H M S) = Ok (replace_tzinfo d0 utc).
Proof.
  unfold datetime_new. destruct (_ && _) eqn:Hrange; [|done]. intros [= <-].
  assert (Hr : 1 ≤ y ≤ 9999 ∧ 1 ≤ m ≤ 12 ∧ 1 ≤ d ≤ Calendar.days_in_month y m
               ∧ 0 ≤ H ≤ 23 ∧ 0 ≤ M ≤ 59 ∧ 0 ≤ S ≤ 59).
  { repeat match type of Hrange with
           | _ && _ = true => apply andb_true_iff in Hrange as [Hrange ?]
           end.
    repeat match goal with
           | H : (_ <=? _) = true |- _ => apply Z.leb_le in H
           end.
    lia. }
  clear Hrange. destruct Hr as (Hy & Hm & Hd & HH & HM & HS).
  pose proof (civil_from_days_from_civil y m d Hm Hd) as Hcivil.
  assert (Hbound : -1000000 <= Calendar.days_from_civil y m d <= 3000000).
  { destruct (days_in_month_bound y m d Hm Hd) as (Hd31 & _).
    assert (Hd1 : 1 ≤ d) by lia.
    unfold Calendar.days_from_civil.
    destruct (m <=? 2); clear - Hy Hm Hd1 Hd31;
      Z.to_euclidean_division_equations; lia. }
  unfold fromtimestamp_int, epoch_seconds.
  set (days := Calendar.days_from_civil y m d) in *.
  assert (Hdiv : (((days * 24 + H) * 60 + M) * 60 + S) / 86400 = days).
  { symmetry. apply Z.div_unique with (r := H * 3600 + M * 60 + S); lia. }
  assert (Hmod : (((days * 24 + H) * 60 + M) * 60 + S) mod 86400
                 = H * 3600 + M * 60 + S).
  { symmetry. apply Z.mod_unique with (q := days); lia. }
  rewrite Hdiv, Hmod, Hcivil.
  replace (negb _) with false by (symmetry; apply negb_false_iff; lia).
  replace (negb _) with false by (symmetry; apply negb_false_iff; lia).
  replace (negb _) with false by (symmetry; apply negb_false_iff; lia).
  unfold replace_tzinfo. simpl. do 2 f_equal.
  - symmetry. apply Z.div_unique with (r := M * 60 + S); lia.
  - assert (Hm3600 : (H * 3600 + M * 60 + S) mod 3600 = M * 60 + S).
    { symmetry. apply Z.mod_unique with (q := H); lia. }
    rewrite Hm3600. symmetry. apply Z.div_unique with (r := S); lia.
  - symmetry. apply Z.mod_unique with (q := H * 60 + M); lia.
Qed.

(** A general form of C6: whenever the string conversion of [fetch_price]
    succeeds, the epoch conversion of [fetch_production], given the seconds
    of the instant it denotes, returns the same aware datetime. *)
Lemma strptime_utc_fromtimestamp_utc_agree (L : PyLib) (s : string) d :
  strptime_utc (VStr s) = Ok d →
  ∃ t, utc_instant d = Some (t * 1000000)
       ∧ fromtimestamp_utc L (VInt t) = Ok d.
Proof.
  unfold strptime_utc, Strptime.strptime. intros H. inv_Ok.
  injection H as <-.
  destruct (Strptime.pattern _); [|done].
  destruct (Strptime.match_pattern _ _ _) as [|[r [|c rest]] ms]; try done.
  match goal with
  | Hn : datetime_new ?y ?m ?d ?H ?M ?S = Ok _ |- _ =>
      exists (epoch_seconds y m d H M S);
      apply datetime_new_fromtimestamp in Hn
  end.
  split; [|done]. by apply fromtimestamp_int_instant.
Qed.

(** ** [fetch]: the scan of the script elements *)

Lemma fetch_step_selected L obj item :
  has_selector item = true →
  fetch_step L obj item = (o ← script_json L item; Ok (Some o)).
Proof.
  intros Hsel. unfold fetch_step, script_json. rewrite Hsel.
  destruct (of_option (head (contents item)) IndexError); simpl; [|done].
  by destruct (json_loads L _).
Qed.

Lemma fetch_step_skipped L obj item :
  has_selector item = false → fetch_step L obj item = Ok obj.
Proof. intros Hsel. unfold fetch_step. by rewrite Hsel. Qed.

Lemma fetch_loop L soup obj :
  for_each (fetch_step L) soup obj
  = (objs ← mapM (script_json L) (filter has_selector soup);
     Ok (from_option Some obj (last objs))).
Proof.
  revert obj. induction soup as [|item soup IH]; intros obj; [done|].
  simpl for_each. destruct (has_selector item) eqn:Hsel.
  - rewrite filter_cons_True by by apply Is_true_true.
    rewrite fetch_step_selected by done. simpl mapM.
    destruct (script_json L item) as [o|e]; simpl; [|done].
    rewrite IH. destruct (mapM _ _) as [objs|e]; simpl; [|done].
    rewrite last_cons. by destruct (last objs).
  - rewrite filter_cons_False by by apply Is_true_false.
    rewrite fetch_step_skipped by done. simpl. apply IH.
Qed.

(** [fetch] sends one request and extracts from the page it gets. *)
Lemma fetch_run L session tr :
  fetch L session tr
  = (match default (new_session L) session PRODUCTION_URL true with
     | Ok response => extract L (find_all_script L (text response))
     | Raise e => Raise e
     end, tr ++ [Request PRODUCTION_URL true]).
Proof.
  unfold fetch, http_get, mbind, M_bind.
  destruct (default (new_session L) session PRODUCTION_URL true)
    as [response|e]; [|done].
  simpl. unfold lift, extract. rewrite fetch_loop.
  destruct (mapM _ _) as [objs|e]; simpl; [|done].
  by destruct (last objs).
Qed.

(** [mapM] in the exception monad succeeds exactly when every element does. *)
Lemma mapM_Ok {A B} (f : A -> result B) (l : list A) (k : list B) :
  mapM f l = Ok k ↔ Forall2 (λ x y, f x = Ok y) l k.
Proof.
  revert k. induction l as [|x l IH]; intros k; simpl.
  - split; [intros [= <-]; constructor | by inversion 1].
  - split.
    + intros H. inv_Ok. injection H as <-. constructor; [done|by apply IH].
    + inversion 1 as [|? y ? k' Hy Hk]; subst. rewrite Hy. simpl.
      apply IH in Hk. by rewrite Hk.
Qed.

Lemma mapM_Ok_exists {A B} (f : A -> result B) (l : list A) :
  Forall (λ x, ∃ y, f x = Ok y) l → ∃ k, mapM f l = Ok k.
Proof.
  induction 1 as [|x l [y Hy] _ [k Hk]]; simpl; [by eexists|].
  rewrite Hy, Hk. by eexists.
Qed.

Lemma extract_Ok L soup obj :
  extract L soup = Ok obj ↔
  Forall (λ x, ∃ o, script_json L x = Ok o) (filter has_selector soup)
  ∧ ∃ item, last (filter has_selector soup) = Some item
            ∧ script_json L item = Ok obj.
Proof.
  unfold extract. split.
  - intros H. inv_Ok. apply mapM_Ok in H0. split.
    + eapply Forall2_Forall_l; [done|].
      apply Forall_true. eauto.
    + apply Forall2_last in H0. rewrite H in H0.
      inversion H0; subst. eauto.
  - intros (Hall & item & Hlast & Hitem).
    destruct (mapM_Ok_exists _ _ Hall) as [objs Hobjs].
    rewrite Hobjs. simpl. apply mapM_Ok, Forall2_last in Hobjs.
    rewrite Hlast in Hobjs. inversion Hobjs as [? o Ho|]; subst.
    by replace o with obj by congruence.
Qed.

Lemma extract_none_selected L soup :
  filter has_selector soup = [] → extract L soup = Raise UnboundLocalError.
Proof. intros Hno. unfold extract. by rewrite Hno. Qed.

(** C5, as the code has it.  [fetch] sends one request; of the script
    elements of the page, only those whose [data-drupal-selector] is not
    empty count.  It returns [obj] exactly when each of them decodes
    ([json.loads] of its first text node) and [obj] is what the last one in
    document order decodes to; and when there is none, in particular when
    no script element carries the attribute, it raises [UnboundLocalError]. *)
Theorem fetch_returns_last_selected L session tr response soup :
  default (new_session L) session PRODUCTION_URL true = Ok response →
  find_all_script L (text response) = soup →
  (∀ obj,
     fetch L session tr = (Ok obj, tr ++ [Request PRODUCTION_URL true]) ↔
     Forall (λ x, ∃ o, script_json L x = Ok o) (filter has_selector soup)
     ∧ ∃ item, last (filter has_selector soup) = Some item
               ∧ script_json L item = Ok obj)
  ∧ (filter has_selector soup = [] →
     fetch L session tr
     = (Raise UnboundLocalError, tr ++ [Request PRODUCTION_URL true]))
  ∧ (Forall (λ x, attrs x !! "data-drupal-selector" = None) soup →
     fetch L session tr
     = (Raise UnboundLocalError, tr ++ [Request PRODUCTION_URL true])).
Proof.
  intros Hget <-. rewrite fetch_run, Hget. split; [|split].
  - intros obj. rewrite <- extract_Ok. split; [by intros [= ->]|by intros ->].
  - intros Hno. by rewrite extract_none_selected.
  - intros Hno. rewrite extract_none_selected; [done|].
    induction Hno as [|x l Hx _ IH]; [done|].
    rewrite filter_cons_False; [done|].
    apply Is_true_false. unfold has_selector. by rewrite Hx.
Qed.

Lemma fetch_returns_last_selected_witness :
  default (new_session Mock.production_lib) (Some scenario_page)
    PRODUCTION_URL true
  = Ok scenario_response
  ∧ find_all_script Mock.production_lib (text scenario_response)
    = scenario_soup
  ∧ (∀ obj,
       fetch Mock.production_lib (Some scenario_page) []
       = (Ok obj, [] ++ [Request PRODUCTION_URL true]) ↔
       Forall (λ x, ∃ o, script_json Mock.production_lib x = Ok o)
         (filter has_selector scenario_soup)
       ∧ ∃ item, last (filter has_selector scenario_soup) = Some item
                 ∧ script_json Mock.production_lib item = Ok obj)
  ∧ (filter has_selector scenario_soup = [] →
     fetch Mock.production_lib (Some scenario_page) []
     = (Raise UnboundLocalError, [] ++ [Request PRODUCTION_URL true]))
  ∧ (Forall (λ x, attrs x !! "data-drupal-selector" = None) scenario_soup →
     fetch Mock.production_lib (Some scenario_page) []
     = (Raise UnboundLocalError, [] ++ [Request PRODUCTION_URL true])).
Proof.
  split; [reflexivity|]. split; [reflexivity|].
  apply (fetch_returns_last_selected Mock.production_lib
           (Some scenario_page) [] scenario_response scenario_soup);
    reflexivity.
Defined.

(** The run behind the witness: the page of the test double has one script
    element with a selector, and [fetch] returns what it decodes to. *)
Example fetch_scenario :
  last (filter has_selector scenario_soup)
  = Some (Mock.script (Some "drupal-settings-json") ["{...}"])
  ∧ fetch Mock.production_lib (Some scenario_page) []
    = (Ok Mock.production_payload, [Request PRODUCTION_URL true]).
Proof. split; vm_compute; reflexivity. Qed.

(** With no script element that carries the attribute, [obj] is never
    bound. *)
Example fetch_no_selector :
  fetch (Mock.lib [Mock.script None ["var x = 1;"]] ∅) (Some scenario_page) []
  = (Raise UnboundLocalError, [Request PRODUCTION_URL true]).
Proof. vm_compute. reflexivity. Qed.

(** C5 as stated does not hold.  On the first page the last script element
    that carries the attribute has it empty ([<script data-drupal-selector>]):
    its text decodes to [[2]], yet [fetch] returns [[1]], decoded from the
    element before it.  On the second page the last element that carries the
    attribute decodes to [[2]] as well, yet [fetch] raises, because the one
    before it does not decode. *)
Lemma fetch_last_carrier_counterexample :
  (last (filter carries_selector page_empty_selector)
   = Some (Mock.script (Some "") ["[2]"])
   ∧ script_json (Mock.lib page_empty_selector page_documents)
       (Mock.script (Some "") ["[2]"])
     = Ok (VList [VInt 2])
   ∧ fetch (Mock.lib page_empty_selector page_documents)
       (Some scenario_page) []
     = (Ok (VList [VInt 1]), [Request PRODUCTION_URL true])
   ∧ VList [VInt 1] ≠ VList [VInt 2])
  ∧ (last (filter carries_selector page_undecodable_first)
     = Some (Mock.script (Some "b") ["[2]"])
     ∧ script_json (Mock.lib page_undecodable_first page_documents)
         (Mock.script (Some "b") ["[2]"])
       = Ok (VList [VInt 2])
     ∧ fetch (Mock.lib page_undecodable_first page_documents)
         (Some scenario_page) []
       = (Raise JSONDecodeError, [Request PRODUCTION_URL true])).
Proof.
  repeat split; try (vm_compute; reflexivity). discriminate.
Qed.

(** ** [fetch_price]: the filtered average *)

Lemma fetch_price_run L zone_key session tr :
  fetch_price L zone_key session None tr
  = (items ← price_items L session; normalize L zone_key items,
     tr ++ [Request PRICE_URL false]).
Proof.
  unfold fetch_price, price_items, normalize, http_get, lift.
  unfold mbind, M_bind, result_bind, mret, M_ret. simpl.
  destruct (default (new_session L) session PRICE_URL false)
    as [response|e]; [|done].
  destruct (json response) as [obj|e]; [|done].
  destruct (py_get obj "items") as [v|e]; [|done].
  destruct (py_iter v) as [items|e]; [|done].
  destruct (for_each (price_step L) items (None, []))
    as [[time prices]|e]; [|done].
  simpl. destruct (average L prices) as [avg_price|e]; [|done].
  destruct (of_option time UnboundLocalError) as [t|e]; [|done].
  destruct (strptime_utc t) as [date_time|e]; [|done].
  by destruct (print_price_comparison L t) as [[]|e].
Qed.

Lemma price_step_test L st item :
  price_step L st item
  = (valid ← region_test item;
     if (valid : bool)
     then s ← sample L item; Ok (Some s.1, st.2 ++ [s.2])
     else Ok st).
Proof.
  unfold price_step, region_test, sample, sample_price.
  destruct (py_get item "grid_zone_id"); simpl; [|done].
  destruct (py_in _ _) as [[]|]; simpl; [|done..].
  destruct (py_get item "timestamp"); simpl; [|done].
  destruct (py_get item "price"); simpl; [|done].
  by destruct (py_float L _).
Qed.

Lemma price_step_outside L st item :
  region_test item = Ok false → price_step L st item = Ok st.
Proof. intros H. by rewrite price_step_test, H. Qed.

Lemma price_loop_tested L items st st' :
  for_each (price_step L) items st = Ok st' →
  Forall (λ x, ∃ b, region_test x = Ok b) items.
Proof.
  revert st. induction items as [|x items IH]; intros st H; [constructor|].
  simpl in H. inv_Ok. constructor; [|by eapply IH].
  rewrite price_step_test in H0. inv_Ok. eauto.
Qed.

(** The loop refines "filter, then convert": on samples whose region can be
    tested, it is the conversion of the samples that pass, in order, and it
    leaves in [time] the timestamp of the last of them. *)
Lemma price_loop L items time prices :
  Forall (λ x, ∃ b, region_test x = Ok b) items →
  for_each (price_step L) items (time, prices)
  = (samples ← mapM (sample L) (filter valid_region items);
     Ok (from_option (Some ∘ fst) time (last samples),
         prices ++ samples.*2)).
Proof.
  intros Hall. revert time prices.
  induction Hall as [|x items [b Hb] _ IH]; intros time prices.
  - simpl. by rewrite app_nil_r.
  - simpl for_each. rewrite price_step_test, Hb. simpl. destruct b.
    + rewrite filter_cons_True
        by (apply Is_true_true; unfold valid_region; by rewrite Hb).
      simpl mapM. destruct (sample L x) as [[t p]|e]; simpl; [|done].
      rewrite IH. destruct (mapM _ _) as [samples|e]; simpl; [|done].
      rewrite last_cons, <- app_assoc. by destruct (last samples).
    + rewrite filter_cons_False
        by (apply Is_true_false; unfold valid_region; by rewrite Hb).
      apply IH.
Qed.

Lemma price_loop_outside L items st :
  Forall (λ x, region_test x = Ok false) items →
  for_each (price_step L) items st = Ok st.
Proof.
  induction 1 as [|x items Hx _ IH]; [done|].
  simpl. by rewrite price_step_outside.
Qed.

Lemma sample_Ok L item s :
  sample L item = Ok s →
  py_get item "timestamp" = Ok s.1 ∧ sample_price L item = Ok s.2.
Proof. unfold sample. intros H. inv_Ok. by injection H as <-. Qed.

(** An integer region id passes the filter exactly when it is one of
    1, ..., 13. *)
Lemma valid_region_int (d : gmap string value) (z : Z) :
  d !! "grid_zone_id" = Some (VInt z) →
  valid_region (VDict d) = true ↔ 1 ≤ z ≤ 13.
Proof.
  intros Hz. unfold valid_region, region_test. simpl. rewrite Hz. simpl.
  unfold NZ_PRICE_REGIONS. case_bool_decide as Hin.
  - apply elem_of_list_to_set, elem_of_seqZ in Hin. split; [lia|done].
  - split; [done|]. intros Hr. destruct Hin.
    apply elem_of_list_to_set, elem_of_seqZ. lia.
Qed.

(** What a record returned by the normalisation is made of. *)
Lemma normalize_Ok L zone_key items r :
  normalize L zone_key items = Ok r →
  ∃ samples s n,
    mapM (sample L) (filter valid_region items) = Ok samples
    ∧ last samples = Some s
    ∧ strptime_utc s.1 = Ok (price_datetime r)
    ∧ float_of_int (Z.of_nat (length samples.*2)) = Ok n
    ∧ price r = PrimFloat.div (builtin_sum L samples.*2) n
    ∧ currency r = "NZD"
    ∧ price_source r = "api.em6.co.nz"
    ∧ price_zoneKey r = zone_key.
Proof.
  unfold normalize. intros H. inv_Ok. injection H as <-. simpl.
  match goal with
  | Hloop : for_each _ _ _ = Ok _ |- _ =>
      pose proof (price_loop_tested _ _ _ _ Hloop) as Hall;
      rewrite (price_loop _ _ _ _ Hall) in Hloop
  end.
  inv_Ok.
  match goal with Hst : Ok _ = Ok _ |- _ => injection Hst as <- end.
  simpl in *.
  match goal with
  | Hm : mapM _ _ = Ok ?samples |- _ => exists samples
  end.
  match goal with
  | Ht : from_option _ None (last ?samples) = Some _ |- _ =>
      destruct (last samples) as [s|] eqn:Hlast; [|done];
      injection Ht as <-; exists s
  end.
  match goal with
  | Ha : average _ _ = Ok _ |- _ =>
      unfold average in Ha; destruct (_.*2) eqn:Hp in Ha; [done|];
      rewrite <- Hp in Ha; inv_Ok; injection Ha as <-
  end.
  eauto 10.
Qed.

Lemma fetch_price_Ok L zone_key session target_datetime tr r tr' :
  fetch_price L zone_key session target_datetime tr = (Ok r, tr') →
  ∃ items,
    target_datetime = None
    ∧ tr' = tr ++ [Request PRICE_URL false]
    ∧ price_items L session = Ok items
    ∧ normalize L zone_key items = Ok r.
Proof.
  destruct target_datetime; [discriminate|].
  rewrite fetch_price_run. intros [= H <-]. inv_Ok. eauto.
Qed.

(** The record is returned whenever the samples that pass convert, the
    timestamp of the last one parses, and arrow accepts it too. *)
Lemma normalize_complete L zone_key items samples s n date_time a :
  Forall (λ x, ∃ b, region_test x = Ok b) items →
  mapM (sample L) (filter valid_region items) = Ok samples →
  last samples = Some s →
  float_of_int (Z.of_nat (length samples.*2)) = Ok n →
  strptime_utc s.1 = Ok date_time →
  arrow_get_utc L s.1 = Ok a →
  normalize L zone_key items
  = Ok (mk_price_record date_time
          (PrimFloat.div (builtin_sum L samples.*2) n)
          "NZD" "api.em6.co.nz" zone_key).
Proof.
  intros Hall Hm Hlast Hn Hdt Ha. unfold normalize.
  rewrite (price_loop _ _ _ _ Hall), Hm. simpl. rewrite Hlast. simpl.
  unfold average. destruct (samples.*2) eqn:Hp.
  { destruct samples; [done|discriminate]. }
  rewrite Hn. simpl. rewrite Hdt. simpl.
  unfold print_price_comparison. by rewrite Ha, Hdt.
Qed.

Lemma fetch_price_complete
    L zone_key session tr items samples s n date_time a :
  price_items L session = Ok items →
  Forall (λ x, ∃ b, region_test x = Ok b) items →
  mapM (sample L) (filter valid_region items) = Ok samples →
  last samples = Some s →
  float_of_int (Z.of_nat (length samples.*2)) = Ok n →
  strptime_utc s.1 = Ok date_time →
  arrow_get_utc L s.1 = Ok a →
  fetch_price L zone_key session None tr
  = (Ok (mk_price_record date_time
           (PrimFloat.div (builtin_sum L samples.*2) n)
           "NZD" "api.em6.co.nz" zone_key),
     tr ++ [Request PRICE_URL false]).
Proof.
  intros Hitems Hall Hm Hlast Hn Hdt Ha.
  rewrite fetch_price_run, Hitems. simpl.
  by erewrite normalize_complete.
Qed.

(** C1.  The price of the record [fetch_price] returns is
    [sum(prices) / len(prices)], where [prices] are the float values of
    exactly the samples that pass the region filter, in order; and a sample
    whose region is outside the set changes nothing: with or without it in
    the payload, the call has the same outcome. *)
Theorem fetch_price_averages_valid_regions L zone_key tr :
  (∀ session target_datetime r tr',
     fetch_price L zone_key session target_datetime tr = (Ok r, tr') →
     ∃ items prices n,
       price_items L session = Ok items
       ∧ Forall2 (λ item p, sample_price L item = Ok p)
           (filter valid_region items) prices
       ∧ prices ≠ []
       ∧ float_of_int (Z.of_nat (length prices)) = Ok n
       ∧ price r = PrimFloat.div (builtin_sum L prices) n)
  ∧ (∀ session session' before item after,
       price_items L session = Ok (before ++ item :: after) →
       price_items L session' = Ok (before ++ after) →
       region_test item = Ok false →
       fetch_price L zone_key session None tr
       = fetch_price L zone_key session' None tr).
Proof.
  split.
  - intros session target_datetime r tr' H.
    destruct (fetch_price_Ok _ _ _ _ _ _ _ H) as (items & _ & _ & Hit & Hn).
    destruct (normalize_Ok _ _ _ _ Hn)
      as (samples & s & n & Hm & Hlast & _ & Hlen & Hprice & _).
    exists items, (samples.*2), n. repeat split; try done.
    + apply mapM_Ok in Hm. apply Forall2_fmap_r.
      eapply Forall2_impl; [done|]. intros item [t p] Hs.
      by apply sample_Ok in Hs as [_ ?].
    + intros Hnil. apply fmap_nil_inv in Hnil. by subst.
  - intros session session' before item after Hs Hs' Hout.
    rewrite !fetch_price_run, Hs, Hs'. simpl. f_equal.
    unfold normalize. rewrite !for_each_app. simpl.
    destruct (for_each (price_step L) before (None, [])) as [st|e]; [|done].
    simpl. by rewrite price_step_outside.
Qed.

(** C4.  The datetime of the record [fetch_price] returns is the timestamp
    of the last sample, in the order of the payload, that passes the region
    filter, converted by
    [strptime(time, "%Y-%m-%dT%H:%M:%SZ").replace(tzinfo=timezone.utc)]. *)
Theorem fetch_price_datetime_of_last_valid_sample
    L zone_key session target_datetime tr r tr' :
  fetch_price L zone_key session target_datetime tr = (Ok r, tr') →
  ∃ items before item time,
    price_items L session = Ok items
    ∧ filter valid_region items = before ++ [item]
    ∧ py_get item "timestamp" = Ok time
    ∧ strptime_utc time = Ok (price_datetime r).
Proof.
  intros H.
  destruct (fetch_price_Ok _ _ _ _ _ _ _ H) as (items & _ & _ & Hit & Hn).
  destruct (normalize_Ok _ _ _ _ Hn)
    as (samples & s & n & Hm & Hlast & Hdt & _).
  apply last_Some in Hlast as [samples' ->].
  apply mapM_Ok, Forall2_app_inv_r in Hm
    as (before & l & Hbefore & Hl & Heq).
  inversion Hl as [|item ? l' ? Hitem Hnil]; subst.
  inversion Hnil; subst.
  apply sample_Ok in Hitem as [Htime _].
  exists items, before, item, s.1. eauto.
Qed.

(** C2, as the code has it.  When every sample of the payload is tested and
    found outside the region set, [fetch_price] raises [ZeroDivisionError],
    from [sum(region_prices) / len(region_prices)], after the one request
    it sends. *)
Theorem fetch_price_no_valid_sample_ZeroDivisionError
    L zone_key session tr items :
  price_items L session = Ok items →
  Forall (λ x, region_test x = Ok false) items →
  fetch_price L zone_key session None tr
  = (Raise ZeroDivisionError, tr ++ [Request PRICE_URL false]).
Proof.
  intros Hitems Hout. rewrite fetch_price_run, Hitems. simpl.
  unfold normalize. by rewrite price_loop_outside.
Qed.

(** The scenario of the price payload: regions 1, 1 and 99 with prices 50,
    60 and 999 give the price 55 and the timestamp of the second sample. *)
Example scenario_price :
  fetch_price scenario_price_lib "NZ"
    (Some (Mock.price_session Mock.price_items)) None []
  = (Ok (mk_price_record (mk_datetime 2024 1 1 0 5 0 0 (Some utc)) 55%float
           "NZD" "api.em6.co.nz" "NZ"),
     [Request PRICE_URL false]).
Proof. vm_compute. reflexivity. Qed.

Lemma fetch_price_averages_valid_regions_witness :
  ∃ r tr',
    fetch_price scenario_price_lib "NZ"
      (Some (Mock.price_session Mock.price_items)) None [] = (Ok r, tr')
    ∧ price r = 55%float
    ∧ (∃ items prices n,
         price_items scenario_price_lib
           (Some (Mock.price_session Mock.price_items)) = Ok items
         ∧ Forall2 (λ item p, sample_price scenario_price_lib item = Ok p)
             (filter valid_region items) prices
         ∧ prices ≠ []
         ∧ float_of_int (Z.of_nat (length prices)) = Ok n
         ∧ price r = PrimFloat.div (builtin_sum scenario_price_lib prices) n)
    ∧ region_test (Mock.sample 99 "2024-01-01T00:05:00Z" "999.0") = Ok false
    ∧ fetch_price scenario_price_lib "NZ"
        (Some (Mock.price_session Mock.price_items)) None []
      = fetch_price scenario_price_lib "NZ"
          (Some (Mock.price_session
                   [Mock.sample 1 "2024-01-01T00:00:00Z" "50.0";
                    Mock.sample 1 "2024-01-01T00:05:00Z" "60.0"])) None [].
Proof.
  eexists _, _. split; [vm_compute; reflexivity|].
  split; [reflexivity|].
  split.
  - eapply (proj1 (fetch_price_averages_valid_regions scenario_price_lib "NZ" [])
              (Some (Mock.price_session Mock.price_items)) None).
    vm_compute. reflexivity.
  - split; [reflexivity|].
    apply (proj2 (fetch_price_averages_valid_regions scenario_price_lib "NZ" [])
             (Some (Mock.price_session Mock.price_items))
             (Some (Mock.price_session
                      [Mock.sample 1 "2024-01-01T00:00:00Z" "50.0";
                       Mock.sample 1 "2024-01-01T00:05:00Z" "60.0"]))
             [Mock.sample 1 "2024-01-01T00:00:00Z" "50.0";
              Mock.sample 1 "2024-01-01T00:05:00Z" "60.0"]
             (Mock.sample 99 "2024-01-01T00:05:00Z" "999.0") []);
      reflexivity.
Defined.

Lemma fetch_price_datetime_of_last_valid_sample_witness :
  ∃ r tr',
    fetch_price scenario_price_lib "NZ"
      (Some (Mock.price_session Mock.price_items)) None [] = (Ok r, tr')
    ∧ price_datetime r = mk_datetime 2024 1 1 0 5 0 0 (Some utc)
    ∧ ∃ items before item time,
        price_items scenario_price_lib
          (Some (Mock.price_session Mock.price_items)) = Ok items
        ∧ filter valid_region items = before ++ [item]
        ∧ py_get item "timestamp" = Ok time
        ∧ strptime_utc time = Ok (price_datetime r).
Proof.
  eexists _, _. split; [vm_compute; reflexivity|].
  split; [reflexivity|].
  eapply (fetch_price_datetime_of_last_valid_sample scenario_price_lib "NZ"
            (Some (Mock.price_session Mock.price_items)) None []).
  vm_compute. reflexivity.
Defined.

Lemma fetch_price_no_valid_sample_ZeroDivisionError_witness :
  price_items scenario_price_lib
    (Some (Mock.price_session
             [Mock.sample 99 "2024-01-01T00:05:00Z" "999.0"]))
  = Ok [Mock.sample 99 "2024-01-01T00:05:00Z" "999.0"]
  ∧ Forall (λ x, region_test x = Ok false)
      [Mock.sample 99 "2024-01-01T00:05:00Z" "999.0"]
  ∧ fetch_price scenario_price_lib "NZ"
      (Some (Mock.price_session
               [Mock.sample 99 "2024-01-01T00:05:00Z" "999.0"])) None []
    = (Raise ZeroDivisionError, [] ++ [Request PRICE_URL false]).
Proof.
  split; [reflexivity|]. split; [by repeat constructor|].
  apply (fetch_price_no_valid_sample_ZeroDivisionError scenario_price_lib "NZ"
           (Some (Mock.price_session
                    [Mock.sample 99 "2024-01-01T00:05:00Z" "999.0"])) []
           [Mock.sample 99 "2024-01-01T00:05:00Z" "999.0"]).
  - reflexivity.
  - by repeat constructor.
Defined.

(** C2 as stated does not hold: with no sample in the payload, or with none
    in a valid region, what [fetch_price] raises is [ZeroDivisionError],
    which is an arithmetic exception. *)
Lemma fetch_price_empty_counterexample :
  fetch_price scenario_price_lib "NZ" (Some (Mock.price_session [])) None []
  = (Raise ZeroDivisionError, [Request PRICE_URL false])
  ∧ filter valid_region [Mock.sample 99 "2024-01-01T00:05:00Z" "999.0"] = []
  ∧ fetch_price scenario_price_lib "NZ"
      (Some (Mock.price_session
               [Mock.sample 99 "2024-01-01T00:05:00Z" "999.0"])) None []
    = (Raise ZeroDivisionError, [Request PRICE_URL false])
  ∧ is_arithmetic_error ZeroDivisionError = true.
Proof. repeat split; vm_compute; reflexivity. Qed.

(** ** [strptime]: the shape of the strings it accepts *)

(** The ASCII digits are decimal digits, with their values. *)
Lemma decimal_value_ascii c :
  48 ≤ c ≤ 57 → Strptime.decimal_value c = Some (c - 48).
Proof.
  intros Hc.
  change (Strptime.decimal_value c)
    with (if (48 <=? c) && (c <? 48 + 10) then Some (c - 48)
          else Strptime.digit_value_in (tail Strptime.decimal_blocks) c).
  replace ((48 <=? c) && (c <? 48 + 10)) with true; [done|].
  symmetry. apply andb_true_iff. split; [apply Z.leb_le|apply Z.ltb_lt]; lia.
Qed.

Lemma glyph_of_atom_sound a c :
  Strptime.in_atom a c = true → glyph_match (glyph_of_atom a) c = true.
Proof.
  destruct a as [lo hi|]; [|done].
  unfold glyph_of_atom. cbn [Strptime.in_atom].
  intros [Hlo Hhi]%andb_true_iff.
  apply Z.leb_le in Hlo, Hhi.
  destruct ((48 <=? _) && _) eqn:Hd.
  { apply andb_true_iff in Hd as [H1%Z.leb_le H2%Z.leb_le].
    cbn [glyph_match Strptime.in_atom].
    by rewrite decimal_value_ascii by lia. }
  destruct ((_ =? 32) && _) eqn:Hb.
  { apply andb_true_iff in Hb as [H1%Z.eqb_eq H2%Z.eqb_eq].
    cbn [glyph_match]. apply Z.eqb_eq. lia. }
  cbn [glyph_match Strptime.in_atom].
  apply andb_true_iff. split; by apply Z.leb_le.
Qed.

Lemma strip_app sk1 sk2 s :
  strip (sk1 ++ sk2) s = strip sk1 s ≫= strip sk2.
Proof.
  revert s. induction sk1 as [|g sk1 IH]; intros s; [done|].
  simpl. destruct s as [|c s]; [done|]. by destruct (glyph_match g c).
Qed.

Lemma match_atoms_strip atoms s m rest :
  Strptime.match_atoms atoms s = Some (m, rest) →
  strip (glyph_of_atom <$> atoms) s = Some rest.
Proof.
  revert s m. induction atoms as [|a atoms IH]; intros s m H; simpl in *.
  - by injection H as _ <-.
  - destruct s as [|c s]; [done|].
    destruct (Strptime.in_atom a c) eqn:Ha; [|done].
    rewrite glyph_of_atom_sound by done.
    destruct (Strptime.match_atoms atoms s) as [[m' r']|] eqn:Hm; [|done].
    simpl in H. injection H as _ <-. by eapply IH.
Qed.

Lemma match_pattern_strip p s r r' rest :
  (r', rest) ∈ Strptime.match_pattern p s r →
  ∃ sk, sk ∈ pattern_shapes p ∧ strip sk s = Some rest.
Proof.
  revert s r. induction p as [|pc p IH]; intros s r H; simpl in *.
  - apply list_elem_of_singleton in H as [= _ ->]. exists [].
    split; [by apply list_elem_of_singleton|done].
  - destruct pc as [f alts|c].
    + apply list_elem_of_bind in H as ([m rst] & H & Hg). simpl in H.
      unfold Strptime.match_group in Hg.
      apply list_elem_of_omap in Hg as (atoms & Hatoms & Hm).
      destruct (IH _ _ H) as (sk & Hsk & Hstrip).
      exists ((glyph_of_atom <$> atoms) ++ sk). split.
      * apply list_elem_of_bind. exists atoms. split; [|done].
        apply list_elem_of_bind. exists sk. split; [|done].
        by apply list_elem_of_singleton.
      * rewrite strip_app, (match_atoms_strip _ _ _ _ Hm). done.
    + destruct s as [|c' s]; [by apply elem_of_nil in H|].
      destruct (Strptime.eq_nocase c c') eqn:Hc;
        [|by apply elem_of_nil in H].
      destruct (IH _ _ H) as (sk & Hsk & Hstrip).
      exists (NoCase c :: sk). split.
      * by apply list_elem_of_fmap_2.
      * simpl. by rewrite Hc.
Qed.

Lemma iso_pattern_compiled :
  Strptime.pattern "%Y-%m-%dT%H:%M:%SZ" = Some iso_pattern.
Proof. reflexivity. Qed.

Lemma iso_pattern_shapes_lenient :
  Forall (λ sk, sk ∈ lenient_shapes) (pattern_shapes iso_pattern).
Proof. apply (bool_decide_unpack _). vm_compute. exact I. Qed.

Lemma strptime_only_ValueError data fmt e :
  Strptime.strptime data fmt = Raise e → e = ValueError.
Proof.
  unfold Strptime.strptime, datetime_new.
  destruct (Strptime.pattern fmt) as [p|]; [|congruence].
  destruct (Strptime.match_pattern p (code_points data)
              Strptime.found_default)
    as [|[r [|c rest]] l]; [congruence| |congruence].
  destruct (_ && _); congruence.
Qed.

Lemma strptime_Ok_lenient_shape s d :
  Strptime.strptime s "%Y-%m-%dT%H:%M:%SZ" = Ok d → lenient_shape s = true.
Proof.
  unfold Strptime.strptime. rewrite iso_pattern_compiled.
  destruct (Strptime.match_pattern iso_pattern (code_points s)
              Strptime.found_default)
    as [|[r [|c rest]] l] eqn:Hm; [done| |done].
  intros _.
  destruct (match_pattern_strip iso_pattern (code_points s)
              Strptime.found_default r [])
    as (sk & Hsk & Hstrip).
  { rewrite Hm. apply elem_of_cons. by left. }
  unfold lenient_shape. apply existsb_exists. exists sk. split.
  - apply list_elem_of_In.
    by apply (proj1 (Forall_forall _ _) iso_pattern_shapes_lenient).
  - unfold has_shape. by rewrite Hstrip.
Qed.

(** C7, as the code has it.  A string that has none of the shapes
    [strptime] goes by for the format (four digits, [-], one or two digits,
    [-], one or two digits or a blank and a digit, [T] or [t], one or two
    digits, [:], one or two digits, [:], one or two digits, [Z] or [z],
    where a digit is any Unicode decimal digit) is rejected with
    [ValueError] and converted to nothing; so are the string with a space
    for the [T] and no [Z], fractional seconds, and an offset that is not
    [Z]. *)
Theorem strptime_utc_rejects_other_shapes :
  (∀ s, lenient_shape s = false → strptime_utc (VStr s) = Raise ValueError)
  ∧ strptime_utc (VStr "2024-01-01 00:00:00") = Raise ValueError
  ∧ strptime_utc (VStr "2024-01-01T00:00:00.5Z") = Raise ValueError
  ∧ strptime_utc (VStr "2024-01-01T00:00:00+00:00") = Raise ValueError.
Proof.
  split; [|repeat split; reflexivity].
  intros s Hs. unfold strptime_utc.
  destruct (Strptime.strptime s "%Y-%m-%dT%H:%M:%SZ") as [d|e] eqn:Hp.
  - apply strptime_Ok_lenient_shape in Hp. congruence.
  - apply strptime_only_ValueError in Hp. by subst.
Qed.

Lemma strptime_utc_rejects_other_shapes_witness :
  lenient_shape "2024-01-01 00:00:00" = false
  ∧ strptime_utc (VStr "2024-01-01 00:00:00") = Raise ValueError.
Proof.
  split; [reflexivity|].
  apply (proj1 strptime_utc_rejects_other_shapes "2024-01-01 00:00:00").
  reflexivity.
Defined.

Example exact_shape_ex :
  exact_shape "2024-01-01T00:00:00Z" = true
  ∧ lenient_shape "2024-01-01T00:00:00Z" = true
  ∧ lenient_shape "２０２４-01-01T00:00:00Z" = true.
Proof. repeat split; reflexivity. Qed.

(** C7 as stated does not hold: these strings deviate from the exact shape
    (fields of one digit; [t] and [z] in lower case; a blank in the day;
    a year in fullwidth digits), and each is converted to
    2024-01-01 00:00:00 UTC. *)
Lemma strptime_utc_lenient_counterexample :
  (exact_shape "2024-1-1T0:0:0Z" = false
   ∧ strptime_utc (VStr "2024-1-1T0:0:0Z")
     = Ok (mk_datetime 2024 1 1 0 0 0 0 (Some utc)))
  ∧ (exact_shape "2024-01-01t00:00:00z" = false
     ∧ strptime_utc (VStr "2024-01-01t00:00:00z")
       = Ok (mk_datetime 2024 1 1 0 0 0 0 (Some utc)))
  ∧ (exact_shape "2024-01- 1T00:00:00Z" = false
     ∧ strptime_utc (VStr "2024-01- 1T00:00:00Z")
       = Ok (mk_datetime 2024 1 1 0 0 0 0 (Some utc)))
  ∧ (exact_shape "２０２４-01-01T00:00:00Z" = false
     ∧ strptime_utc (VStr "２０２４-01-01T00:00:00Z")
       = Ok (mk_datetime 2024 1 1 0 0 0 0 (Some utc))).
Proof. repeat split; reflexivity. Qed.

(** * Further properties of the parsers *)

(** ** The calendar *)

(** The date of a day count is a date of the calendar, and its year lies in
    1 .. 9999 exactly for the day counts of 0001-01-01 .. 9999-12-31. *)
Lemma civil_from_days_valid z :
  let '(y, m, d) := Calendar.civil_from_days z in
  1 <= m <= 12 /\ 1 <= d <= Calendar.days_in_month y m
  /\ (1 <= y <= 9999 <-> -719162 <= z <= 2932896).
Proof.
  unfold Calendar.civil_from_days. cbv zeta.
  set (z' := z + 719468).
  set (era := z' / 146097).
  set (doe := z' - era * 146097).
  assert (Hdoe : 0 <= doe < 146097) by (subst doe era; div_lia).
  assert (Hz : z = era * 146097 + doe - 719468) by (subst doe z'; lia).
  clearbody doe era. clear z'.
  set (yoe := (doe - doe / 1460 + doe / 36524 - doe / 146096) / 365).
  assert (Hyoe : 0 <= yoe <= 399) by (subst yoe; div_lia).
  set (doy := doe - (365 * yoe + yoe / 4 - yoe / 100)).
  assert (Hdoy : 0 <= doy <= 365 /\
                 (doy = 365 -> yoe mod 4 = 3 /\ (yoe mod 100 <> 99 \/ yoe = 399)))
    by (subst doy yoe; clear Hz; div_lia).
  assert (Hdoe' : doe = 365 * yoe + yoe / 4 - yoe / 100 + doy) by (subst doy; lia).
  clearbody doy. clearbody yoe.
  set (mp := (5 * doy + 2) / 153).
  assert (Hmp : 0 <= mp <= 11) by (subst mp; clear - Hdoy; div_lia).
  pose proof (month_offset mp Hmp) as Hoff.
  assert (Hmpdoy : 153 * mp <= 5 * doy + 2 < 153 * mp + 153)
    by (subst mp; clear - Hdoy; div_lia).
  clearbody mp.
  set (off := (153 * mp + 2) / 5) in *. clearbody off.
  set (m := if mp <? 10 then mp + 3 else mp - 9).
  assert (Hm : (mp < 10 /\ m = mp + 3) \/ (10 <= mp /\ m = mp - 9))
    by (subst m; destruct (Z.ltb_spec mp 10); lia).
  clearbody m.
  set (y := if m <=? 2 then yoe + era * 400 + 1 else yoe + era * 400).
  assert (Hy : (m <= 2 /\ y = yoe + era * 400 + 1)
               \/ (2 < m /\ y = yoe + era * 400))
    by (subst y; destruct (Z.leb_spec m 2); lia).
  clearbody y.
  assert (Hjan : m <= 2 <-> 306 <= doy) by (clear - Hm Hmp Hmpdoy; lia).
  assert (Hrange : 1 <= y <= 9999 <-> -719162 <= z <= 2932896).
  { clear - Hz Hdoe Hyoe Hdoy Hdoe' Hy Hjan.
    destruct Hdoy as [Hdoy _].
    assert (Hq : 4 * (yoe / 4) <= yoe < 4 * (yoe / 4) + 4) by (clear; div_lia).
    assert (Hc : 100 * (yoe / 100) <= yoe < 100 * (yoe / 100) + 100)
      by (clear; div_lia).
    set (q := yoe / 4) in *. set (c := yoe / 100) in *.
    clearbody q c.
    split; intros Hr; lia. }
  split; [clear - Hm Hmp; lia|]. split; [|exact Hrange].
  assert (Hleap : mp = 11 -> doy = 365 ->
                  y mod 4 = 0 /\ (y mod 100 <> 0 \/ y mod 400 = 0)).
  { intros Hfeb H365. destruct Hdoy as [_ Hl]. specialize (Hl H365).
    assert (Hyv : y = yoe + era * 400 + 1) by (clear - Hy Hm Hfeb; lia).
    clear - Hl Hyv Hyoe. div_lia. }
  destruct Hdoy as [Hdoy _].
  clear - Hoff Hmpdoy Hm Hleap Hdoy.
  destruct Hoff as [[-> ->]|[[-> ->]|[[-> ->]|[[-> ->]|[[-> ->]|[[-> ->]|
                   [[-> ->]|[[-> ->]|[[-> ->]|[[-> ->]|[[-> ->]|[-> ->]]]]]]]]]]]];
    (destruct Hm as [[? ->]|[? ->]]; [try lia|try lia]);
    (split; [lia|]);
    unfold Calendar.days_in_month; simpl (_ =? _); simpl (_ || _); cbv iota.
  all: try lia.
  unfold Calendar.is_leap.
  destruct (Z.eqb_spec (y mod 4) 0), (Z.eqb_spec (y mod 100) 0),
    (Z.eqb_spec (y mod 400) 0); simpl; try lia.
  all: assert (doy = 365 -> False) by (intros H365; destruct (Hleap eq_refl H365); lia); lia.
Qed.

(** ** Requests *)

Lemma fetch_production_trace L zone_key session tr :
  (fetch_production L zone_key session None tr).2
  = tr ++ [Request PRODUCTION_URL true].
Proof.
  unfold fetch_production, mbind, M_bind.
  destruct (fetch L session tr) as [[obj|e] tr1] eqn:Hfetch;
    rewrite fetch_run in Hfetch; injection Hfetch as _ <-; [|done].
  unfold lift.
  destruct (payload_timestamp obj) as [ts|]; [|done].
  destruct (fromtimestamp_utc L ts); [|done].
  destruct (if print_arrow_comparison then _ else _); [|done].
  destruct (payload_region obj "New Zealand"); [|done].
  by destruct (production_data _ _ _).
Qed.


(** X2.  The script entry point runs the two parsers in turn.  If
    [fetch_price] raises, the script stops with that exception and the
    production page is never requested; otherwise the price request is
    followed by the production request, and the script ends as
    [fetch_production] does. *)
Theorem main_runs_price_then_production L tr :
  (∀ e tr1,
     fetch_price L "NZ" None None tr = (Raise e, tr1) →
     main L tr = (Raise e, tr ++ [Request PRICE_URL false]))
  ∧ (∀ p tr1,
       fetch_price L "NZ" None None tr = (Ok p, tr1) →
       (main L tr).2
       = tr ++ [Request PRICE_URL false; Request PRODUCTION_URL true]
       ∧ (main L tr).1
         = (fetch_production L "NZ" None None
              (tr ++ [Request PRICE_URL false])).1 ≫= λ _, Ok tt).
Proof.
  split.
  - intros e tr1 Hprice. unfold main, mbind at 1, M_bind. rewrite Hprice.
    f_equal. pose proof (fetch_price_run L "NZ" None tr) as Hrun.
    rewrite Hprice in Hrun. by injection Hrun as _ ->.
  - intros p tr1 Hprice.
    pose proof (fetch_price_run L "NZ" None tr) as Hrun.
    rewrite Hprice in Hrun. injection Hrun as _ ->.
    unfold main, mbind at 1 3, M_bind. rewrite Hprice.
    unfold mbind at 1 2, M_bind.
    pose proof (fetch_production_trace L "NZ" None
                  (tr ++ [Request PRICE_URL false])) as Htr.
    destruct (fetch_production L "NZ" None None _) as [[q|e] tr2];
      simpl in *; subst tr2; by rewrite <- app_assoc.
Qed.

Lemma main_runs_price_then_production_witness :
  main scenario_price_lib []
  = (Raise RequestException, [] ++ [Request PRICE_URL false])
  ∧ (main scenario_site_lib []).2
    = [] ++ [Request PRICE_URL false; Request PRODUCTION_URL true]
  ∧ (main scenario_site_lib []).1
    = (fetch_production scenario_site_lib "NZ" None None
         ([] ++ [Request PRICE_URL false])).1 ≫= λ _, Ok tt.
Proof.
  split.
  - apply (proj1 (main_runs_price_then_production scenario_price_lib [])
             RequestException [Request PRICE_URL false]).
    reflexivity.
  - apply (proj2 (main_runs_price_then_production scenario_site_lib [])
             (mk_price_record (mk_datetime 2024 1 1 0 5 0 0 (Some utc))
                55%float "NZD" "api.em6.co.nz" "NZ")
             [Request PRICE_URL false]).
    vm_compute. reflexivity.
Defined.

(** ** The first failure decides *)

Lemma mapM_Raise {A B} (f : A -> result B) l1 x l2 e :
  Forall (λ y, ∃ b, f y = Ok b) l1 → f x = Raise e →
  mapM f (l1 ++ x :: l2) = Raise e.
Proof.
  intros Hok Hx. induction Hok as [|y l1 [b Hy] _ IH]; simpl.
  - by rewrite Hx.
  - by rewrite Hy, IH.
Qed.

Lemma script_json_exceptions L item e :
  script_json L item = Raise e →
  (contents item = [] → e = IndexError)
  ∧ (∀ body rest, contents item = body :: rest → json_loads L body = Raise e).
Proof.
  unfold script_json. destruct (contents item) as [|body rest]; simpl.
  - intros [= <-]. by split.
  - intros He. split; [done|]. by intros ? ? [= <- <-].
Qed.

(** X3.  [fetch] decodes the selected script elements in document order and
    stops at the first that fails: if the selected elements before [item]
    decode and [item] does not, [fetch] raises what [item] raises, whatever
    comes after it on the page.  That is [IndexError] when the element is
    empty ([contents[0]]), and otherwise the exception [json.loads] raises
    on its first text node. *)
Theorem fetch_first_undecodable_element
    L session tr response before item after e :
  default (new_session L) session PRODUCTION_URL true = Ok response →
  find_all_script L (text response) = before ++ item :: after →
  Forall (λ x, has_selector x = true → ∃ o, script_json L x = Ok o) before →
  has_selector item = true →
  script_json L item = Raise e →
  fetch L session tr = (Raise e, tr ++ [Request PRODUCTION_URL true])
  ∧ (contents item = [] → e = IndexError)
  ∧ (∀ body rest, contents item = body :: rest →
       json_loads L body = Raise e).
Proof.
  intros Hget Hsoup Hbefore Hsel Hitem.
  split; [|by apply (script_json_exceptions L)].
  rewrite fetch_run, Hget, Hsoup. f_equal. unfold extract.
  rewrite filter_app, filter_cons_True by by apply Is_true_true.
  rewrite (mapM_Raise _ _ _ _ e); [done| |done].
  apply Forall_forall. intros x [Hx Hin]%list_elem_of_filter.
  apply (proj1 (Forall_forall _ _) Hbefore x Hin). by apply Is_true_true.
Qed.

Lemma fetch_first_undecodable_element_witness :
  fetch (Mock.lib page_undecodable_second page_documents)
    (Some scenario_page) []
  = (Raise JSONDecodeError, [] ++ [Request PRODUCTION_URL true])
  ∧ (contents (Mock.script (Some "b") ["oops"]) = [] →
     JSONDecodeError = IndexError)
  ∧ (∀ body rest,
       contents (Mock.script (Some "b") ["oops"]) = body :: rest →
       json_loads (Mock.lib page_undecodable_second page_documents) body
       = Raise JSONDecodeError).
Proof.
  apply (fetch_first_undecodable_element
           (Mock.lib page_undecodable_second page_documents)
           (Some scenario_page) [] scenario_response
           [Mock.script (Some "a") ["[1]"]; Mock.script None ["var x = 1;"]]
           (Mock.script (Some "b") ["oops"])
           [Mock.script (Some "c") ["[2]"]] JSONDecodeError);
    try reflexivity.
  constructor; [intros _; by exists (VList [VInt 1])|].
  constructor; [discriminate|]. constructor.
Defined.

(** ** [fetch_price]: failures *)

Lemma region_test_Ok_dict item b :
  region_test item = Ok b → ∃ d, item = VDict d.
Proof. destruct item; try discriminate. eauto. Qed.

Lemma sample_dict L (d : gmap string value) :
  sample L (VDict d)
  = (p ← sample_price L (VDict d); Ok (default VNone (d !! "timestamp"), p)).
Proof. reflexivity. Qed.

(** X4.  [fetch_price] converts the prices in payload order and stops at the
    first sample of a valid region whose price does not convert: it raises
    what [float] raises on that price, whatever comes after.  A sample of a
    valid region with no price raises [TypeError] ([float(None)]); one whose
    price is a string that is no number raises [ValueError]. *)
Theorem fetch_price_first_bad_price
    L zone_key session tr before item after e :
  price_items L session = Ok (before ++ item :: after) →
  Forall (λ x, ∃ b, region_test x = Ok b) before →
  Forall (λ x, valid_region x = true → ∃ p, sample_price L x = Ok p) before →
  region_test item = Ok true →
  sample_price L item = Raise e →
  fetch_price L zone_key session None tr
  = (Raise e, tr ++ [Request PRICE_URL false])
  ∧ (∀ d, item = VDict d → d !! "price" = None → e = TypeError)
  ∧ (∀ d s, item = VDict d → d !! "price" = Some (VStr s) → e = ValueError).
Proof.
  intros Hitems Htested Hprices Hvalid Hbad. split; [|split].
  - rewrite fetch_price_run, Hitems. simpl. f_equal. unfold normalize.
    rewrite for_each_app, (price_loop _ _ _ _ Htested).
    assert (Hm : ∃ samples,
               mapM (sample L) (filter valid_region before) = Ok samples).
    { apply mapM_Ok_exists, Forall_forall.
      intros x [Hx Hin]%list_elem_of_filter.
      destruct (proj1 (Forall_forall _ _) Htested x Hin) as [b Hb].
      destruct (region_test_Ok_dict _ _ Hb) as [d ->].
      destruct (proj1 (Forall_forall _ _) Hprices _ Hin) as [p Hp];
        [by apply Is_true_true|].
      rewrite sample_dict, Hp. by eexists. }
    destruct Hm as [samples ->]. simpl.
    rewrite price_step_test, Hvalid. simpl.
    destruct (region_test_Ok_dict _ _ Hvalid) as [d ->].
    by rewrite sample_dict, Hbad.
  - intros d -> Hno. unfold sample_price in Hbad. simpl in Hbad.
    rewrite Hno in Hbad. simpl in Hbad. congruence.
  - intros d s -> Hs. unfold sample_price in Hbad. simpl in Hbad.
    rewrite Hs in Hbad. simpl in Hbad.
    destruct (float_of_str L s); simpl in Hbad; congruence.
Qed.

Lemma fetch_price_first_bad_price_witness :
  fetch_price scenario_price_lib "NZ"
    (Some (Mock.price_session price_items_bad_price)) None []
  = (Raise ValueError, [] ++ [Request PRICE_URL false]).
Proof.
  apply (fetch_price_first_bad_price scenario_price_lib "NZ"
           (Some (Mock.price_session price_items_bad_price)) []
           [Mock.sample 1 "2024-01-01T00:00:00Z" "50.0"]
           (Mock.sample 2 "2024-01-01T00:00:00Z" "n/a")
           [Mock.sample 3 "2024-01-01T00:00:00Z" "60.0"] ValueError).
  - reflexivity.
  - constructor; [|constructor]. exists true. reflexivity.
  - constructor; [|constructor]. intros _.
    exists 50%float. reflexivity.
  - reflexivity.
  - reflexivity.
Defined.

Lemma price_loop_time_overwritten L after t1 t2 prices :
  Exists (λ x, region_test x = Ok true) after →
  for_each (price_step L) after (t1, prices)
  = for_each (price_step L) after (t2, prices).
Proof.
  intros Hex. revert prices.
  induction Hex as [x after Hx|x after _ IH]; intros prices; simpl;
    rewrite !price_step_test.
  - rewrite Hx. simpl. by destruct (sample L x).
  - destruct (region_test x) as [[]|]; simpl; [|apply IH|done].
    by destruct (sample L x).
Qed.

(** X5.  Of the timestamps of the payload, only the one of the last sample
    of a valid region is read as a date: when a later sample of a valid
    region follows, putting any value whatever in place of the timestamp of
    a sample leaves the outcome of [fetch_price] unchanged. *)
Theorem fetch_price_ignores_earlier_timestamps
    L zone_key session session' tr before (d : gmap string value) v after :
  price_items L session = Ok (before ++ VDict d :: after) →
  price_items L session'
  = Ok (before ++ VDict (<["timestamp" := v]> d) :: after) →
  Exists (λ x, region_test x = Ok true) after →
  fetch_price L zone_key session None tr
  = fetch_price L zone_key session' None tr.
Proof.
  intros Hs Hs' Hlater. rewrite !fetch_price_run, Hs, Hs'. simpl. f_equal.
  unfold normalize. rewrite !for_each_app.
  destruct (for_each (price_step L) before (None, [])) as [[t ps]|]; [|done].
  simpl. rewrite !price_step_test.
  assert (Hregion : region_test (VDict (<["timestamp" := v]> d))
                    = region_test (VDict d)).
  { unfold region_test. simpl. by rewrite lookup_insert_ne. }
  rewrite Hregion. destruct (region_test (VDict d)) as [[]|]; simpl;
    [|done..].
  rewrite !sample_dict.
  assert (Hprice : sample_price L (VDict (<["timestamp" := v]> d))
                   = sample_price L (VDict d)).
  { unfold sample_price. simpl. by rewrite lookup_insert_ne. }
  rewrite Hprice. destruct (sample_price L (VDict d)); simpl; [|done].
  by rewrite (price_loop_time_overwritten L after
                (Some (default VNone (d !! "timestamp")))
                (Some (default VNone (<["timestamp" := v]> d !! "timestamp")))).
Qed.

Lemma fetch_price_ignores_earlier_timestamps_witness :
  fetch_price scenario_price_lib "NZ"
    (Some (Mock.price_session
             [VDict scenario_sample_fields;
              Mock.sample 2 "2024-01-01T00:05:00Z" "60.0"])) None []
  = fetch_price scenario_price_lib "NZ"
      (Some (Mock.price_session
               [VDict (<["timestamp" := VNone]> scenario_sample_fields);
                Mock.sample 2 "2024-01-01T00:05:00Z" "60.0"])) None [].
Proof.
  apply (fetch_price_ignores_earlier_timestamps scenario_price_lib "NZ"
           _ _ [] [] scenario_sample_fields VNone
           [Mock.sample 2 "2024-01-01T00:05:00Z" "60.0"]).
  - reflexivity.
  - reflexivity.
  - constructor. reflexivity.
Defined.

(** X6.  The shape of the price payload: when the decoded body is a
    dictionary whose ["items"] is missing or null, [fetch_price] raises
    [TypeError] (the loop runs over [None]); when the body is no dictionary
    it raises [AttributeError] ([obj.get]); and so it does when ["items"] is
    a list whose first element is no dictionary ([item.get]). *)
Theorem fetch_price_payload_shape L zone_key session tr response obj :
  default (new_session L) session PRICE_URL false = Ok response →
  json response = Ok obj →
  (∀ d, obj = VDict d → default VNone (d !! "items") = VNone →
     fetch_price L zone_key session None tr
     = (Raise TypeError, tr ++ [Request PRICE_URL false]))
  ∧ ((∀ d, obj ≠ VDict d) →
     fetch_price L zone_key session None tr
     = (Raise AttributeError, tr ++ [Request PRICE_URL false]))
  ∧ (∀ d x items, obj = VDict d →
       d !! "items" = Some (VList (x :: items)) → (∀ dx, x ≠ VDict dx) →
       fetch_price L zone_key session None tr
       = (Raise AttributeError, tr ++ [Request PRICE_URL false])).
Proof.
  intros Hget Hjson. rewrite fetch_price_run. unfold price_items.
  rewrite Hget. simpl. rewrite Hjson. simpl. split; [|split].
  - intros d -> Hitems. simpl. by rewrite Hitems.
  - intros Hno. destruct obj; try done. by destruct (Hno d).
  - intros d x items -> Hitems Hx. simpl. rewrite Hitems. simpl.
    unfold normalize. simpl.
    destruct x; try done. by destruct (Hx d0).
Qed.

Lemma fetch_price_payload_shape_witness :
  fetch_price scenario_price_lib "NZ"
    (Some (Mock.session "{}" (Ok (VDict ∅)))) None []
  = (Raise TypeError, [] ++ [Request PRICE_URL false]).
Proof.
  apply (proj1 (fetch_price_payload_shape scenario_price_lib "NZ"
                  (Some (Mock.session "{}" (Ok (VDict ∅)))) []
                  (mk_response "{}" (Ok (VDict ∅))) (VDict ∅)
                  eq_refl eq_refl) ∅);
    reflexivity.
Defined.

(** ** [fetch_production]: what is read from the payload *)

Lemma py_getitem_Ok entry key v :
  py_getitem entry key = Ok v → ∃ e, entry = VDict e ∧ e !! key = Some v.
Proof.
  destruct entry; try discriminate. simpl. intros H%of_option_Ok. eauto.
Qed.

Lemma py_getitem_Raise entry key e :
  py_getitem entry key = Raise e → e = KeyError ∨ e = TypeError.
Proof.
  destruct entry; simpl; try (intros [= <-]; by right).
  destruct (_ !! key); simpl; [done|]. intros [= <-]. by left.
Qed.

Lemma category_Raise (d : gmap string value) name key e :
  category (VDict d) name key = Raise e → e = KeyError ∨ e = TypeError.
Proof. unfold category. simpl. apply py_getitem_Raise. Qed.

Lemma production_data_Raise zone_key date_time (d : gmap string value) e :
  production_data zone_key date_time (VDict d) = Raise e →
  e = KeyError ∨ e = TypeError.
Proof.
  unfold production_data. intros H.
  repeat match type of H with
         | (category ?p ?n ?k ≫= _) = Raise _ =>
             let E := fresh "E" in
             destruct (category p n k) eqn:E;
             [change ((Ok ?a ≫= ?f) = Raise e) with (f a = Raise e) in H;
              cbv beta in H
             |injection H as <-; by eapply category_Raise]
         end.
  discriminate.
Qed.

Lemma well_formed_region_spec (d : gmap string value) :
  well_formed_region d = true ↔
  ∀ name entry, name ∈ provider_categories → d !! name = Some entry →
    ∃ e, entry = VDict e
         ∧ is_Some (e !! "generation") ∧ is_Some (e !! "capacity").
Proof.
  unfold well_formed_region. rewrite forallb_forall. split.
  - intros H name entry Hin Hentry.
    apply list_elem_of_In, H in Hin. rewrite Hentry in Hin. simpl in Hin.
    destruct entry; try discriminate. simpl in Hin.
    apply andb_true_iff in Hin as [H1 H2].
    apply bool_decide_eq_true in H1, H2. eauto.
  - intros H name Hin%list_elem_of_In.
    destruct (d !! name) as [entry|] eqn:Hentry; [|done]. simpl.
    destruct (H name entry Hin Hentry) as (e & -> & H1 & H2). simpl.
    apply andb_true_iff. split; by apply bool_decide_eq_true.
Qed.

Lemma production_data_well_formed zone_key date_time (d : gmap string value) r :
  production_data zone_key date_time (VDict d) = Ok r →
  well_formed_region d = true.
Proof.
  intros H. apply well_formed_region_spec. intros name entry Hin Hentry.
  destruct (production_data_Ok _ _ _ _ H)
    as (_ & _ & _ & _ & Hgen & Hcap & (vb & Hvb & _) & _).
  assert (Hg : ∃ v, category (VDict d) name "generation" = Ok v).
  { unfold provider_categories in Hin.
    repeat (apply elem_of_cons in Hin as [->|Hin];
            [first [by eauto
                   |by (edestruct Hgen as (v & Hv & _);
                        [|exists v; exact Hv]; repeat constructor)]|]).
    by apply elem_of_nil in Hin. }
  assert (Hc : ∃ v, category (VDict d) name "capacity" = Ok v).
  { unfold provider_categories in Hin.
    repeat (apply elem_of_cons in Hin as [->|Hin];
            [by (edestruct Hcap as (v & Hv & _);
                 [|exists v; exact Hv]; repeat constructor)|]).
    by apply elem_of_nil in Hin. }
  destruct Hg as [vg Hg], Hc as [vc Hc].
  rewrite (category_present _ _ _ _ Hentry) in Hg.
  rewrite (category_present _ _ _ _ Hentry) in Hc.
  apply py_getitem_Ok in Hg as (e & -> & Hg).
  apply py_getitem_Ok in Hc as (e' & [= <-] & Hc).
  exists e. eauto.
Qed.

(** [fetch_production] from the look-ups of the categories on. *)
Lemma fetch_production_run
    L zone_key session tr obj tr' ts date_time a productions :
  fetch L session tr = (Ok obj, tr') →
  payload_timestamp obj = Ok ts →
  fromtimestamp_utc L ts = Ok date_time →
  arrow_get_X L ts = Ok a →
  payload_region obj "New Zealand" = Ok productions →
  fetch_production L zone_key session None tr
  = (production_data zone_key date_time productions, tr').
Proof.
  intros Hfetch Hts Hdt Ha Hregion.
  unfold fetch_production, mbind, M_bind, lift.
  rewrite Hfetch, Hts, Hdt. simpl.
  unfold print_production_comparison. rewrite Ha, Hdt. simpl.
  rewrite Hregion. by destruct (production_data _ _ _).
Qed.

(** X7.  When [fetch_production] returns a record, every figure of a
    category that is present in the mapping of the region is copied as it
    is, with no conversion: the output value is the very value of the
    payload, under the output key of the category ([Co-Gen] under
    ["unknown"], the capacity of [Battery] under ["battery storage"], its
    generation under ["battery"] of [storage]). *)
Theorem fetch_production_copies_present_figures
    L zone_key session target_datetime tr r tr' :
  fetch_production L zone_key session target_datetime tr = (Ok r, tr') →
  ∃ obj productions,
    fetch L session tr = (Ok obj, tr')
    ∧ payload_region obj "New Zealand" = Ok (VDict productions)
    ∧ (∀ provider out entry, (provider, out) ∈ generation_categories →
         productions !! provider = Some entry →
         ∃ e v, entry = VDict e ∧ e !! "generation" = Some v
                ∧ production r !! out = Some v)
    ∧ (∀ provider out entry, (provider, out) ∈ capacity_categories →
         productions !! provider = Some entry →
         ∃ e v, entry = VDict e ∧ e !! "capacity" = Some v
                ∧ capacity r !! out = Some v)
    ∧ (∀ entry, productions !! "Battery" = Some entry →
         ∃ e v, entry = VDict e ∧ e !! "generation" = Some v
                ∧ storage r !! "battery" = Some v).
Proof.
  intros H.
  destruct (fetch_production_Ok _ _ _ _ _ _ _ H)
    as (obj & ts & productions & _ & Hfetch & _ & _ & Hregion & Hdata).
  destruct (production_data_Ok _ _ _ _ Hdata)
    as (_ & _ & _ & _ & Hgen & Hcap & (vb & Hvb & Hsto) & _).
  exists obj, productions. repeat split; try done.
  - intros provider out entry Hin Hentry.
    destruct (Hgen _ _ Hin) as (v & Hv & Hout).
    rewrite (category_present _ _ _ _ Hentry) in Hv.
    apply py_getitem_Ok in Hv as (e & -> & Hv). eauto.
  - intros provider out entry Hin Hentry.
    destruct (Hcap _ _ Hin) as (v & Hv & Hout).
    rewrite (category_present _ _ _ _ Hentry) in Hv.
    apply py_getitem_Ok in Hv as (e & -> & Hv). eauto.
  - intros entry Hentry.
    rewrite (category_present _ _ _ _ Hentry) in Hvb.
    apply py_getitem_Ok in Hvb as (e & -> & Hv). eauto.
Qed.

Lemma fetch_production_copies_present_figures_witness :
  ∃ obj productions,
    fetch Mock.production_lib (Some scenario_page) []
    = (Ok obj, [Request PRODUCTION_URL true])
    ∧ payload_region obj "New Zealand" = Ok (VDict productions)
    ∧ (∀ provider out entry, (provider, out) ∈ generation_categories →
         productions !! provider = Some entry →
         ∃ e v, entry = VDict e ∧ e !! "generation" = Some v
                ∧ production scenario_production_record !! out = Some v)
    ∧ (∀ provider out entry, (provider, out) ∈ capacity_categories →
         productions !! provider = Some entry →
         ∃ e v, entry = VDict e ∧ e !! "capacity" = Some v
                ∧ capacity scenario_production_record !! out = Some v)
    ∧ (∀ entry, productions !! "Battery" = Some entry →
         ∃ e v, entry = VDict e ∧ e !! "generation" = Some v
                ∧ storage scenario_production_record !! "battery" = Some v).
Proof.
  apply (fetch_production_copies_present_figures Mock.production_lib "NZ"
           (Some scenario_page) None []).
  vm_compute. reflexivity.
Defined.

(** X8.  Once the page has yielded a payload whose timestamp converts (for
    arrow too) and whose region ["New Zealand"] is a mapping,
    [fetch_production] returns a record exactly when every category it
    reads is missing or is a dictionary that holds both ["generation"] and
    ["capacity"].  Otherwise it raises [KeyError] (a figure is missing) or
    [TypeError] (a category is no dictionary), and nothing else. *)
Theorem fetch_production_returns_iff_well_formed
    L zone_key session tr obj tr' ts date_time a (d : gmap string value) :
  fetch L session tr = (Ok obj, tr') →
  payload_timestamp obj = Ok ts →
  fromtimestamp_utc L ts = Ok date_time →
  arrow_get_X L ts = Ok a →
  payload_region obj "New Zealand" = Ok (VDict d) →
  (well_formed_region d = true →
   ∃ r, fetch_production L zone_key session None tr = (Ok r, tr'))
  ∧ (well_formed_region d = false →
     ∃ e, fetch_production L zone_key session None tr = (Raise e, tr')
          ∧ (e = KeyError ∨ e = TypeError)).
Proof.
  intros Hfetch Hts Hdt Ha Hregion.
  rewrite (fetch_production_run _ _ _ _ _ _ _ _ _ _ Hfetch Hts Hdt Ha Hregion).
  split; intros Hwf.
  - destruct (production_data_total zone_key date_time d
                (proj1 (well_formed_region_spec d) Hwf)) as [r ->].
    by exists r.
  - destruct (production_data zone_key date_time (VDict d)) as [r|e] eqn:Hr.
    + apply production_data_well_formed in Hr. congruence.
    + exists e. split; [done|]. by eapply production_data_Raise.
Qed.

Lemma fetch_production_returns_iff_well_formed_witness :
  (∃ r, fetch_production Mock.production_lib "NZ" (Some scenario_page) None []
        = (Ok r, [Request PRODUCTION_URL true]))
  ∧ ∃ e, fetch_production
           (Mock.lib scenario_soup
              {[ "{...}" := production_payload_no_capacity ]})
           "NZ" (Some scenario_page) None []
         = (Raise e, [Request PRODUCTION_URL true])
         ∧ (e = KeyError ∨ e = TypeError).
Proof.
  split.
  - refine (proj1 (fetch_production_returns_iff_well_formed
                    Mock.production_lib "NZ" (Some scenario_page) []
                    Mock.production_payload [Request PRODUCTION_URL true]
                    (VInt 1704067200)
                    (mk_datetime 2024 1 1 0 0 0 0 (Some utc))
                    (mk_datetime 2024 1 1 0 0 0 0 (Some utc))
                    (list_to_map
                       [("Hydro", Mock.dict [("generation", VInt 1200);
                                             ("capacity", VInt 1500)])])
                    _ _ _ _ _) _);
      reflexivity.
  - refine (proj2 (fetch_production_returns_iff_well_formed
                    (Mock.lib scenario_soup
                       {[ "{...}" := production_payload_no_capacity ]})
                    "NZ" (Some scenario_page) []
                    production_payload_no_capacity
                    [Request PRODUCTION_URL true] (VInt 1704067200)
                    (mk_datetime 2024 1 1 0 0 0 0 (Some utc))
                    (mk_datetime 2024 1 1 0 0 0 0 (Some utc))
                    (list_to_map
                       [("Gas", Mock.dict [("generation", VInt 300)])])
                    _ _ _ _ _) _);
      reflexivity.
Defined.

(** X9.  The places of the payload [fetch_production] reads must be there:
    without ["soPgenGraph"], or without its ["timestamp"], the call raises
    [KeyError]; a timestamp that is a string or [None] raises [TypeError]
    (nothing converts it to a number); and when the timestamp converts, a
    payload without ["data"], or whose data has no region ["New Zealand"],
    raises [KeyError]. *)
Theorem fetch_production_payload_shape
    L zone_key session tr (o : gmap string value) tr' :
  fetch L session tr = (Ok (VDict o), tr') →
  (o !! "soPgenGraph" = None →
   fetch_production L zone_key session None tr = (Raise KeyError, tr'))
  ∧ (∀ g : gmap string value, o !! "soPgenGraph" = Some (VDict g) →
       (g !! "timestamp" = None →
        fetch_production L zone_key session None tr = (Raise KeyError, tr'))
       ∧ (∀ ts, g !! "timestamp" = Some ts →
            (ts = VNone ∨ ∃ s, ts = VStr s) →
            fetch_production L zone_key session None tr
            = (Raise TypeError, tr'))
       ∧ (∀ ts date_time a, g !! "timestamp" = Some ts →
            fromtimestamp_utc L ts = Ok date_time →
            arrow_get_X L ts = Ok a →
            (g !! "data" = None →
             fetch_production L zone_key session None tr
             = (Raise KeyError, tr'))
            ∧ (∀ regions : gmap string value,
                 g !! "data" = Some (VDict regions) →
                 regions !! "New Zealand" = None →
                 fetch_production L zone_key session None tr
                 = (Raise KeyError, tr')))).
Proof.
  intros Hfetch.
  unfold fetch_production, mbind, M_bind, lift. rewrite Hfetch.
  unfold payload_timestamp, payload_region. simpl.
  split; [by intros ->|].
  intros g ->. simpl. split; [by intros ->|]. split.
  - intros ts -> [->|[s ->]]; reflexivity.
  - intros ts date_time a -> Hdt Ha. simpl. rewrite Hdt. simpl.
    unfold print_production_comparison. rewrite Ha, Hdt. simpl.
    split; [by intros ->|]. intros regions -> Hno. simpl. by rewrite Hno.
Qed.

Lemma fetch_production_payload_shape_witness :
  fetch_production (Mock.lib scenario_soup {[ "{...}" := VDict ∅ ]}) "NZ"
    (Some scenario_page) None []
  = (Raise KeyError, [Request PRODUCTION_URL true]).
Proof.
  refine (proj1 (fetch_production_payload_shape
                   (Mock.lib scenario_soup {[ "{...}" := VDict ∅ ]}) "NZ"
                   (Some scenario_page) [] ∅ [Request PRODUCTION_URL true]
                   _) _);
    reflexivity.
Defined.

(** ** The range of the timestamps *)

Lemma datetime_new_Ok y m d H M S d0 :
  datetime_new y m d H M S = Ok d0 → d0 = mk_datetime y m d H M S 0 None.
Proof. unfold datetime_new. destruct (_ && _); congruence. Qed.

Lemma datetime_new_fields y m d H M S :
  1 ≤ y ≤ 9999 → 1 ≤ m ≤ 12 → 1 ≤ d ≤ Calendar.days_in_month y m →
  0 ≤ H ≤ 23 → 0 ≤ M ≤ 59 → 0 ≤ S ≤ 59 →
  datetime_new y m d H M S = Ok (mk_datetime y m d H M S 0 None).
Proof.
  intros. unfold datetime_new.
  replace (_ && _) with true; [done|]. symmetry.
  repeat (apply andb_true_iff; split); apply Z.leb_le; lia.
Qed.

(** [fromtimestamp] on an integer: inside the range of [datetime] it
    returns an aware datetime of the calendar; outside it raises, and which
    exception depends on how far outside. *)
Lemma fromtimestamp_int_cases t :
  (MIN_TIMESTAMP ≤ t ≤ MAX_TIMESTAMP →
   ∃ d, fromtimestamp_int t = Ok d
        ∧ dt_tzinfo d = Some utc ∧ dt_microsecond d = 0
        ∧ is_calendar_datetime d = true)
  ∧ (¬ (MIN_TIMESTAMP ≤ t ≤ MAX_TIMESTAMP) →
     ∃ e, fromtimestamp_int t = Raise e
          ∧ (e = OverflowError ∨ e = OSError ∨ e = ValueError)
          ∧ (e = OverflowError ↔ ¬ (- 2 ^ 63 ≤ t < 2 ^ 63))).
Proof.
  unfold fromtimestamp_int, MIN_TIMESTAMP, MAX_TIMESTAMP.
  pose proof (civil_from_days_valid (t / 86400)) as Hvalid.
  destruct (Calendar.civil_from_days (t / 86400)) as [[y m] d].
  destruct Hvalid as (Hm & Hd & Hy).
  assert (Hdays : -719162 ≤ t / 86400 ≤ 2932896
                  ↔ -62135596800 ≤ t ≤ 253402300799) by (clear; div_lia).
  rewrite Hdays in Hy. clear Hdays.
  assert (Hs : 0 ≤ t mod 86400 < 86400) by (clear; div_lia).
  set (s := t mod 86400) in *. clearbody s.
  split.
  - intros Ht.
    replace (negb _) with false by (symmetry; apply negb_false_iff; lia).
    replace (negb _) with false by (symmetry; apply negb_false_iff; lia).
    replace (negb _) with false by (symmetry; apply negb_false_iff; lia).
    eexists. split; [done|]. do 2 (split; [done|]).
    unfold is_calendar_datetime. simpl.
    rewrite datetime_new_fields; [done|lia|done|done|..];
      clear - Hs; div_lia.
  - intros Ht.
    destruct ((- 2 ^ 63 <=? t) && (t <? 2 ^ 63)) eqn:H64; simpl.
    + assert (- 2 ^ 63 ≤ t < 2 ^ 63) by lia.
      destruct ((- 2 ^ 31 <=? y - 1900) && (y - 1900 <? 2 ^ 31)); simpl.
      * replace (negb _) with true by (symmetry; apply negb_true_iff; lia).
        exists ValueError. split; [done|]. split; [by auto|]. split; [done|].
        intros []. lia.
      * exists OSError. split; [done|]. split; [by auto|]. split; [done|].
        intros []. lia.
    + exists OverflowError. split; [done|]. split; [by auto|].
      split; [|done]. intros _. lia.
Qed.

Lemma strptime_utc_Ok time d :
  strptime_utc time = Ok d →
  (∃ s, time = VStr s)
  ∧ dt_tzinfo d = Some utc ∧ dt_microsecond d = 0
  ∧ is_calendar_datetime d = true.
Proof.
  unfold strptime_utc. destruct time; try discriminate.
  intros H. inv_Ok. injection H as <-.
  split; [by eexists|]. split; [done|].
  unfold Strptime.strptime in *.
  destruct (Strptime.pattern _); [|done].
  destruct (Strptime.match_pattern _ _ _) as [|[r [|c rest]] ms]; try done.
  match goal with
  | Hn : datetime_new _ _ _ _ _ _ = Ok _ |- _ =>
      pose proof (datetime_new_Ok _ _ _ _ _ _ _ Hn) as ->;
      unfold is_calendar_datetime; simpl; by rewrite Hn
  end.
Qed.

(** X10.  When [fetch_production] returns a record for a payload whose
    timestamp is an integer [t], the datetime of the record is the instant
    [t] seconds after the epoch, aware and in UTC, with no microseconds, a
    date of the calendar; and [t] lies between 0001-01-01T00:00:00Z and
    9999-12-31T23:59:59Z.  The zone key of the record is the argument of the
    call and its source is ["transpower.co.nz"]. *)
Theorem fetch_production_datetime_is_payload_instant
    L zone_key session target_datetime tr r tr' :
  fetch_production L zone_key session target_datetime tr = (Ok r, tr') →
  zoneKey r = zone_key ∧ source r = "transpower.co.nz"
  ∧ ∃ obj ts,
      fetch L session tr = (Ok obj, tr')
      ∧ payload_timestamp obj = Ok ts
      ∧ ∀ t, ts = VInt t →
          MIN_TIMESTAMP ≤ t ≤ MAX_TIMESTAMP
          ∧ utc_instant (datetime_ r) = Some (t * 1000000)
          ∧ dt_tzinfo (datetime_ r) = Some utc
          ∧ dt_microsecond (datetime_ r) = 0
          ∧ is_calendar_datetime (datetime_ r) = true.
Proof.
  intros H.
  destruct (fetch_production_Ok _ _ _ _ _ _ _ H)
    as (obj & ts & productions & _ & Hfetch & Hts & Hdt & _ & Hdata).
  destruct (production_data_Ok _ _ _ _ Hdata) as (_ & Hz & _ & Hsrc & _).
  do 2 (split; [done|]). exists obj, ts. do 2 (split; [done|]).
  intros t ->. simpl in Hdt.
  destruct (fromtimestamp_int_cases t) as [Hin Hout].
  destruct (decide (MIN_TIMESTAMP ≤ t ≤ MAX_TIMESTAMP)) as [Ht|Ht].
  - destruct (Hin Ht) as (d & Hd & Htz & Hus & Hcal).
    rewrite Hdt in Hd. injection Hd as <-.
    split; [done|]. split; [by apply fromtimestamp_int_instant|]. done.
  - destruct (Hout Ht) as (e & He & _). congruence.
Qed.

Lemma fetch_production_datetime_is_payload_instant_witness :
  zoneKey scenario_production_record = "NZ"
  ∧ source scenario_production_record = "transpower.co.nz"
  ∧ ∃ obj ts,
      fetch Mock.production_lib (Some scenario_page) []
      = (Ok obj, [Request PRODUCTION_URL true])
      ∧ payload_timestamp obj = Ok ts
      ∧ ∀ t, ts = VInt t →
          MIN_TIMESTAMP ≤ t ≤ MAX_TIMESTAMP
          ∧ utc_instant (datetime_ scenario_production_record)
            = Some (t * 1000000)
          ∧ dt_tzinfo (datetime_ scenario_production_record) = Some utc
          ∧ dt_microsecond (datetime_ scenario_production_record) = 0
          ∧ is_calendar_datetime (datetime_ scenario_production_record)
            = true.
Proof.
  apply (fetch_production_datetime_is_payload_instant Mock.production_lib
           "NZ" (Some scenario_page) None []).
  vm_compute. reflexivity.
Defined.

(** X11.  A payload whose timestamp is an integer outside
    0001-01-01T00:00:00Z .. 9999-12-31T23:59:59Z never gives a record:
    [fetch_production] raises [OverflowError], [OSError] or [ValueError],
    and [OverflowError] exactly when the integer does not fit the 64 bits of
    [time_t]. *)
Theorem fetch_production_timestamp_out_of_range
    L zone_key session tr obj tr' t :
  fetch L session tr = (Ok obj, tr') →
  payload_timestamp obj = Ok (VInt t) →
  ¬ (MIN_TIMESTAMP ≤ t ≤ MAX_TIMESTAMP) →
  ∃ e, fetch_production L zone_key session None tr = (Raise e, tr')
       ∧ (e = OverflowError ∨ e = OSError ∨ e = ValueError)
       ∧ (e = OverflowError ↔ ¬ (- 2 ^ 63 ≤ t < 2 ^ 63)).
Proof.
  intros Hfetch Hts Ht.
  destruct (proj2 (fromtimestamp_int_cases t) Ht) as (e & He & Hkind).
  exists e. split; [|done].
  unfold fetch_production, mbind, M_bind, lift.
  rewrite Hfetch, Hts. simpl. by rewrite He.
Qed.

Lemma fetch_production_timestamp_out_of_range_witness :
  ∃ e, fetch_production
         (Mock.lib scenario_soup {[ "{...}" := production_payload_late ]})
         "NZ" (Some scenario_page) None []
       = (Raise e, [Request PRODUCTION_URL true])
       ∧ (e = OverflowError ∨ e = OSError ∨ e = ValueError)
       ∧ (e = OverflowError ↔ ¬ (- 2 ^ 63 ≤ 253402300800 < 2 ^ 63)).
Proof.
  apply (fetch_production_timestamp_out_of_range
           (Mock.lib scenario_soup {[ "{...}" := production_payload_late ]})
           "NZ" (Some scenario_page) [] production_payload_late).
  - reflexivity.
  - reflexivity.
  - unfold MIN_TIMESTAMP, MAX_TIMESTAMP. lia.
Defined.

(** X12.  The record [fetch_price] returns: the currency is ["NZD"], the
    source ["api.em6.co.nz"], the zone key the argument of the call; one
    request was sent; the datetime is aware and in UTC, has no
    microseconds and is a date of the calendar; and it is the datetime the
    conversion of [fetch_production] returns for the seconds of the instant
    it denotes, so that the two parsers stamp one instant alike. *)
Theorem fetch_price_record_invariants
    L zone_key session target_datetime tr r tr' :
  fetch_price L zone_key session target_datetime tr = (Ok r, tr') →
  currency r = "NZD" ∧ price_source r = "api.em6.co.nz"
  ∧ price_zoneKey r = zone_key
  ∧ tr' = tr ++ [Request PRICE_URL false]
  ∧ dt_tzinfo (price_datetime r) = Some utc
  ∧ dt_microsecond (price_datetime r) = 0
  ∧ is_calendar_datetime (price_datetime r) = true
  ∧ ∃ t, MIN_TIMESTAMP ≤ t ≤ MAX_TIMESTAMP
         ∧ utc_instant (price_datetime r) = Some (t * 1000000)
         ∧ fromtimestamp_utc L (VInt t) = Ok (price_datetime r).
Proof.
  intros H.
  destruct (fetch_price_Ok _ _ _ _ _ _ _ H) as (items & _ & Htr & _ & Hn).
  destruct (normalize_Ok _ _ _ _ Hn)
    as (samples & s & n & _ & _ & Hdt & _ & _ & Hcur & Hsrc & Hzone).
  do 4 (split; [done|]).
  destruct (strptime_utc_Ok _ _ Hdt) as ([str Hstr] & Htz & Hus & Hcal).
  do 3 (split; [done|]).
  rewrite Hstr in Hdt.
  destruct (strptime_utc_fromtimestamp_utc_agree L _ _ Hdt) as (t & Hi & Hf).
  exists t. split; [|done].
  destruct (decide (MIN_TIMESTAMP ≤ t ≤ MAX_TIMESTAMP)) as [Ht|Ht]; [done|].
  destruct (proj2 (fromtimestamp_int_cases t) Ht) as (e & He & _).
  simpl in Hf. congruence.
Qed.

Lemma fetch_price_record_invariants_witness :
  currency (mk_price_record (mk_datetime 2024 1 1 0 5 0 0 (Some utc))
              55%float "NZD" "api.em6.co.nz" "NZ") = "NZD"
  ∧ ∃ t, MIN_TIMESTAMP ≤ t ≤ MAX_TIMESTAMP
         ∧ utc_instant (mk_datetime 2024 1 1 0 5 0 0 (Some utc))
           = Some (t * 1000000)
         ∧ fromtimestamp_utc scenario_price_lib (VInt t)
           = Ok (mk_datetime 2024 1 1 0 5 0 0 (Some utc)).
Proof.
  assert (H := fetch_price_record_invariants scenario_price_lib "NZ"
                 (Some (Mock.price_session Mock.price_items)) None []
                 (mk_price_record (mk_datetime 2024 1 1 0 5 0 0 (Some utc))
                    55%float "NZD" "api.em6.co.nz" "NZ")
                 [Request PRICE_URL false]).
  split; [apply H; vm_compute; reflexivity|].
  apply H. vm_compute. reflexivity.
Defined.

(** ** The region filter *)

Lemma NZ_PRICE_REGIONS_spec z : z ∈ NZ_PRICE_REGIONS ↔ 1 ≤ z ≤ 13.
Proof.
  unfold NZ_PRICE_REGIONS. rewrite elem_of_list_to_set, elem_of_seqZ. lia.
Qed.

(** X13.  Which region ids pass the filter [region in regions] of
    [fetch_price]: an integer exactly when it is one of 1, ..., 13; a
    sample with no [grid_zone_id], with [None] or with a string (even the
    string of such a number) never; [True] does and [False] does not
    ([True == 1]); a float equal to one of the integers does; and a list or
    a dictionary raises [TypeError], since it cannot be hashed. *)
Theorem region_filter_by_kind (d : gmap string value) :
  (∀ z, d !! "grid_zone_id" = Some (VInt z) →
     region_test (VDict d) = Ok (bool_decide (1 ≤ z ≤ 13)))
  ∧ (d !! "grid_zone_id" = None ∨ d !! "grid_zone_id" = Some VNone
     ∨ (∃ s, d !! "grid_zone_id" = Some (VStr s)) →
     region_test (VDict d) = Ok false)
  ∧ (∀ b, d !! "grid_zone_id" = Some (VBool b) →
       region_test (VDict d) = Ok b)
  ∧ (∀ n g, 1 ≤ n ≤ 13 → float_of_int n = Ok g →
       d !! "grid_zone_id" = Some (VFloat g) →
       region_test (VDict d) = Ok true)
  ∧ (∀ v, d !! "grid_zone_id" = Some v →
       (∃ l, v = VList l) ∨ (∃ m, v = VDict m) →
       region_test (VDict d) = Raise TypeError).
Proof.
  unfold region_test. simpl. repeat split.
  - intros z ->. simpl. f_equal. apply bool_decide_ext.
    apply NZ_PRICE_REGIONS_spec.
  - intros [->|[->|[s ->]]]; reflexivity.
  - intros [] ->; reflexivity.
  - intros n g Hn Hg ->. simpl. f_equal.
    assert (Hcases : n = 1 ∨ n = 2 ∨ n = 3 ∨ n = 4 ∨ n = 5 ∨ n = 6 ∨ n = 7
                     ∨ n = 8 ∨ n = 9 ∨ n = 10 ∨ n = 11 ∨ n = 12 ∨ n = 13)
      by lia.
    repeat destruct Hcases as [->|Hcases]; try subst n;
      vm_compute in Hg; injection Hg as <-; vm_compute; reflexivity.
  - intros v -> [[l ->]|[m ->]]; reflexivity.
Qed.

Lemma region_filter_by_kind_witness :
  region_test (Mock.sample 14 "2024-01-01T00:00:00Z" "50.0")
  = Ok (bool_decide (1 ≤ 14 ≤ 13))
  ∧ region_test (Mock.dict [("grid_zone_id", VStr "1")]) = Ok false.
Proof.
  split.
  - apply (proj1 (region_filter_by_kind
                    (list_to_map
                       [("grid_zone_id", VInt 14);
                        ("timestamp", VStr "2024-01-01T00:00:00Z");
                        ("price", VStr "50.0")])) 14).
    reflexivity.
  - apply (proj1 (proj2 (region_filter_by_kind
                           (list_to_map [("grid_zone_id", VStr "1")])))).
    right. right. exists "1". reflexivity.
Defined.

(** ** The comparison with arrow *)

(** X14.  The block that prints the comparison with arrow is not inert
    ([print_arrow_comparison] is [True]): when the conversion of the record
    succeeds and arrow rejects the same timestamp, [fetch_price] and
    [fetch_production] raise what arrow raises and return no record. *)
Theorem arrow_failure_propagates L zone_key session tr :
  (∀ items samples s n date_time e,
     price_items L session = Ok items →
     Forall (λ x, ∃ b, region_test x = Ok b) items →
     mapM (sample L) (filter valid_region items) = Ok samples →
     last samples = Some s →
     float_of_int (Z.of_nat (length samples.*2)) = Ok n →
     strptime_utc s.1 = Ok date_time →
     arrow_get_utc L s.1 = Raise e →
     fetch_price L zone_key session None tr
     = (Raise e, tr ++ [Request PRICE_URL false]))
  ∧ (∀ obj tr' ts date_time e,
       fetch L session tr = (Ok obj, tr') →
       payload_timestamp obj = Ok ts →
       fromtimestamp_utc L ts = Ok date_time →
       arrow_get_X L ts = Raise e →
       fetch_production L zone_key session None tr = (Raise e, tr')).
Proof.
  split.
  - intros items samples s n date_time e Hitems Hall Hm Hlast Hn Hdt Ha.
    rewrite fetch_price_run, Hitems. simpl. f_equal. unfold normalize.
    rewrite (price_loop _ _ _ _ Hall), Hm. simpl. rewrite Hlast. simpl.
    unfold average. destruct (samples.*2) eqn:Hp.
    { destruct samples; [done|discriminate]. }
    rewrite Hn. simpl. rewrite Hdt. simpl.
    unfold print_price_comparison. by rewrite Ha.
  - intros obj tr' ts date_time e Hfetch Hts Hdt Ha.
    unfold fetch_production, mbind, M_bind, lift.
    rewrite Hfetch, Hts, Hdt. simpl.
    unfold print_production_comparison. by rewrite Ha.
Qed.

Lemma arrow_failure_propagates_witness :
  fetch_production (scenario_arrow_rejects Mock.production_lib) "NZ"
    (Some scenario_page) None []
  = (Raise ParserError, [Request PRODUCTION_URL true]).
Proof.
  apply (proj2 (arrow_failure_propagates
                  (scenario_arrow_rejects Mock.production_lib) "NZ"
                  (Some scenario_page) [])
           Mock.production_payload [Request PRODUCTION_URL true]
           (VInt 1704067200) (mk_datetime 2024 1 1 0 0 0 0 (Some utc))
           ParserError);
    reflexivity.
Defined.

(** ** The zone key *)

Lemma normalize_zone L z z' items :
  normalize L z' items
  = (r ← normalize L z items; Ok (price_with_zone z' r)).
Proof.
  unfold normalize.
  destruct (for_each _ _ _) as [st|]; [|done]. simpl.
  destruct (average L st.2); [|done]. simpl.
  destruct (of_option st.1 _) as [time|]; [|done]. simpl.
  destruct (strptime_utc time); [|done]. simpl.
  by destruct (print_price_comparison L time).
Qed.

Lemma production_data_zone z z' date_time productions :
  production_data z' date_time productions
  = (r ← production_data z date_time productions;
     Ok (production_with_zone z' r)).
Proof.
  unfold production_data.
  repeat match goal with
         | |- context [category ?p ?n ?k] =>
             destruct (category p n k); [|reflexivity];
             change (Ok ?a ≫= ?f) with (f a); cbv beta
         end.
  reflexivity.
Qed.

(** X15.  The zone key is a label and nothing more: it is neither checked
    nor used to choose what is fetched.  Whatever zone is asked for, the
    two parsers send the same request, fail alike, and return the record
    of New Zealand with the zone key of the call written on it. *)
Theorem zone_key_only_labels L z z' session target_datetime tr :
  fetch_price L z' session target_datetime tr
  = ((fetch_price L z session target_datetime tr).1
       ≫= (λ r, Ok (price_with_zone z' r)),
     (fetch_price L z session target_datetime tr).2)
  ∧ fetch_production L z' session target_datetime tr
    = ((fetch_production L z session target_datetime tr).1
         ≫= (λ r, Ok (production_with_zone z' r)),
       (fetch_production L z session target_datetime tr).2).
Proof.
  destruct target_datetime; [done|]. split.
  - rewrite !fetch_price_run. simpl. f_equal.
    destruct (price_items L session) as [items|]; [|done]. simpl.
    apply normalize_zone.
  - unfold fetch_production, mbind, M_bind, lift.
    destruct (fetch L session tr) as [[obj|] tr1]; [|done].
    destruct (payload_timestamp obj) as [ts|]; [|done].
    destruct (fromtimestamp_utc L ts) as [date_time|]; [|done].
    destruct (if print_arrow_comparison then _ else _); [|done].
    destruct (payload_region obj "New Zealand") as [productions|]; [|done].
    rewrite (production_data_zone z z').
    by destruct (production_data z date_time productions).
Qed.

(** ** [strptime] reads the padded form *)

Lemma Z_range_cases (P : Z → Prop) lo len :
  Forall P (seqZ lo len) → ∀ n, lo ≤ n < lo + len → P n.
Proof.
  intros H n Hn. apply (proj1 (Forall_forall _ _) H). apply elem_of_seqZ. lia.
Qed.

Ltac read_fields :=
  match goal with
  | |- Forall _ (seqZ ?lo ?len) =>
      let l := eval vm_compute in (seqZ lo len) in
      change (seqZ lo len) with l
  end;
  repeat (constructor;
          [intros rest; vm_compute; eexists; split; reflexivity|]);
  constructor.

Lemma month_read n : 1 ≤ n ≤ 12 → reads_two_digits "m" n.
Proof. intros Hn. apply (Z_range_cases _ 1 12); [read_fields|lia]. Qed.

Lemma day_read n : 1 ≤ n ≤ 31 → reads_two_digits "d" n.
Proof. intros Hn. apply (Z_range_cases _ 1 31); [read_fields|lia]. Qed.

Lemma hour_read n : 0 ≤ n ≤ 23 → reads_two_digits "H" n.
Proof. intros Hn. apply (Z_range_cases _ 0 24); [read_fields|lia]. Qed.

Lemma minute_read n : 0 ≤ n ≤ 59 → reads_two_digits "M" n.
Proof. intros Hn. apply (Z_range_cases _ 0 60); [read_fields|lia]. Qed.

Lemma second_read n : 0 ≤ n ≤ 59 → reads_two_digits "S" n.
Proof. intros Hn. apply (Z_range_cases _ 0 60); [read_fields|lia]. Qed.

Lemma digit_code k : 0 ≤ k ≤ 9 → code (digit k) = 48 + k.
Proof.
  intros Hk. revert k Hk.
  assert (H : Forall (λ k, code (digit k) = 48 + k) (seqZ 0 10))
    by (vm_compute; repeat constructor).
  intros k Hk. apply (Z_range_cases _ 0 10 H). lia.
Qed.

(** A character below U+0080 is one byte. *)
Lemma code_points_ascii b s :
  code b < 128 → code_points (String b s) = code b :: code_points s.
Proof.
  intros Hb. unfold code_points. cbn [characters].
  by replace (code b <? 128) with true by (symmetry; by apply Z.ltb_lt).
Qed.

Lemma code_points_digit k s :
  0 ≤ k ≤ 9 → code_points (String (digit k) s) = (48 + k) :: code_points s.
Proof.
  intros Hk. rewrite code_points_ascii; rewrite (digit_code k Hk); [done|lia].
Qed.

Lemma code_points_pad2 n rest :
  0 ≤ n ≤ 99 →
  code_points (String.append (pad2 n) rest)
  = code_points (pad2 n) ++ code_points rest.
Proof.
  intros Hn.
  change (String.append (pad2 n) rest)
    with (String (digit (n / 10)) (String (digit (n mod 10)) rest)).
  unfold pad2.
  assert (H1 : 0 ≤ n / 10 ≤ 9) by (clear - Hn; div_lia).
  assert (H2 : 0 ≤ n mod 10 ≤ 9) by (clear; div_lia).
  by rewrite !code_points_digit by done.
Qed.

Lemma code_points_pad4 y rest :
  0 ≤ y ≤ 9999 →
  code_points (String.append (pad4 y) rest)
  = [48 + y / 1000; 48 + y / 100 mod 10; 48 + y mod 100 / 10;
     48 + y mod 100 mod 10] ++ code_points rest.
Proof.
  intros Hy.
  change (String.append (pad4 y) rest)
    with (String (digit (y / 1000)) (String (digit (y / 100 mod 10))
            (String (digit (y mod 100 / 10))
               (String (digit (y mod 100 mod 10)) rest)))).
  assert (H1 : 0 ≤ y / 1000 ≤ 9) by (clear - Hy; div_lia).
  assert (H2 : 0 ≤ y / 100 mod 10 ≤ 9) by (clear; div_lia).
  assert (H3 : 0 ≤ y mod 100 / 10 ≤ 9) by (clear; div_lia).
  assert (H4 : 0 ≤ y mod 100 mod 10 ≤ 9) by (clear; div_lia).
  by rewrite !code_points_digit by done.
Qed.

Lemma in_atom_decimal_ascii k :
  0 ≤ k ≤ 9 → Strptime.in_atom Strptime.Decimal (48 + k) = true.
Proof.
  intros Hk. cbn [Strptime.in_atom].
  by rewrite decimal_value_ascii by lia.
Qed.

Lemma py_int_from_digit acc k s :
  0 ≤ k ≤ 9 →
  Strptime.py_int_from acc ((48 + k) :: s)
  = Strptime.py_int_from (10 * acc + k) s.
Proof.
  intros Hk. cbn [Strptime.py_int_from].
  rewrite decimal_value_ascii by lia. do 2 f_equal. lia.
Qed.

Lemma year_read y rest :
  0 ≤ y ≤ 9999 →
  Strptime.match_group (alternatives "Y")
    ([48 + y / 1000; 48 + y / 100 mod 10; 48 + y mod 100 / 10;
      48 + y mod 100 mod 10] ++ rest)
  = [([48 + y / 1000; 48 + y / 100 mod 10; 48 + y mod 100 / 10;
       48 + y mod 100 mod 10], rest)]
  ∧ Strptime.py_int
      [48 + y / 1000; 48 + y / 100 mod 10; 48 + y mod 100 / 10;
       48 + y mod 100 mod 10] = y.
Proof.
  intros Hy.
  assert (H1 : 0 ≤ y / 1000 ≤ 9) by (clear - Hy; div_lia).
  assert (H2 : 0 ≤ y / 100 mod 10 ≤ 9) by (clear; div_lia).
  assert (H3 : 0 ≤ y mod 100 / 10 ≤ 9) by (clear; div_lia).
  assert (H4 : 0 ≤ y mod 100 mod 10 ≤ 9) by (clear; div_lia).
  split.
  - change (alternatives "Y")
      with [[Strptime.Decimal; Strptime.Decimal; Strptime.Decimal;
             Strptime.Decimal]].
    unfold Strptime.match_group.
    cbn [app omap list_omap Strptime.match_atoms].
    rewrite !in_atom_decimal_ascii by done. reflexivity.
  - unfold Strptime.py_int.
    rewrite !py_int_from_digit by done. cbn [Strptime.py_int_from].
    clear. div_lia.
Qed.

Lemma head_app_Some {A} (l1 l2 : list A) x :
  head l1 = Some x → head (l1 ++ l2) = Some x.
Proof. by destruct l1. Qed.

Lemma match_pattern_group_head f k p' s r m rest tail x :
  Strptime.match_group (alternatives k) s = (m, rest) :: tail →
  head (Strptime.match_pattern p' rest
          (Strptime.set_field f (Strptime.py_int m) r)) = Some x →
  head (Strptime.match_pattern (Strptime.Group f (alternatives k) :: p') s r)
  = Some x.
Proof.
  intros Hg Hx. cbn [Strptime.match_pattern]. rewrite Hg.
  change (head (Strptime.match_pattern p' rest
                  (Strptime.set_field f (Strptime.py_int m) r)
                ++ tail ≫= λ mr, Strptime.match_pattern p' mr.2
                     (Strptime.set_field f (Strptime.py_int mr.1) r))
          = Some x).
  by apply head_app_Some.
Qed.

Lemma match_pattern_two_digits_head f k p' n rest r x :
  reads_two_digits k n →
  head (Strptime.match_pattern p' rest (Strptime.set_field f n r)) = Some x →
  head (Strptime.match_pattern (Strptime.Group f (alternatives k) :: p')
          (code_points (pad2 n) ++ rest) r)
  = Some x.
Proof.
  intros Hread Hx. destruct (Hread rest) as (tail & Hg & Hint).
  eapply match_pattern_group_head; [exact Hg|]. by rewrite Hint.
Qed.

Lemma match_pattern_lit_head c p' s r x :
  head (Strptime.match_pattern p' s r) = Some x →
  head (Strptime.match_pattern (Strptime.Lit c :: p') (code c :: s) r)
  = Some x.
Proof.
  intros Hx. cbn [Strptime.match_pattern].
  unfold Strptime.eq_nocase. by rewrite Z.eqb_refl.
Qed.

Lemma iso_pattern_groups :
  iso_pattern
  = [Strptime.Group Strptime.FY (alternatives "Y"); Strptime.Lit "-";
     Strptime.Group Strptime.Fm (alternatives "m"); Strptime.Lit "-";
     Strptime.Group Strptime.Fd (alternatives "d"); Strptime.Lit "T";
     Strptime.Group Strptime.FH (alternatives "H"); Strptime.Lit ":";
     Strptime.Group Strptime.FM (alternatives "M"); Strptime.Lit ":";
     Strptime.Group Strptime.FS (alternatives "S"); Strptime.Lit "Z"].
Proof. reflexivity. Qed.

(** The characters of the padded form. *)
Lemma code_points_isoformat y m d H M S us tz :
  0 ≤ y ≤ 9999 → 0 ≤ m ≤ 99 → 0 ≤ d ≤ 99 →
  0 ≤ H ≤ 99 → 0 ≤ M ≤ 99 → 0 ≤ S ≤ 99 →
  code_points (isoformat_Z (mk_datetime y m d H M S us tz))
  = [48 + y / 1000; 48 + y / 100 mod 10; 48 + y mod 100 / 10;
     48 + y mod 100 mod 10]
    ++ code "-" :: code_points (pad2 m)
    ++ code "-" :: code_points (pad2 d)
    ++ code "T" :: code_points (pad2 H)
    ++ code ":" :: code_points (pad2 M)
    ++ code ":" :: code_points (pad2 S)
    ++ [code "Z"].
Proof.
  intros Hy Hm Hd HH HM HS. unfold isoformat_Z.
  cbn [dt_year dt_month dt_day dt_hour dt_minute dt_second].
  rewrite code_points_pad4 by done. f_equal.
  rewrite code_points_ascii by done. f_equal.
  rewrite code_points_pad2 by done. f_equal.
  rewrite code_points_ascii by done. f_equal.
  rewrite code_points_pad2 by done. f_equal.
  rewrite code_points_ascii by done. f_equal.
  rewrite code_points_pad2 by done. f_equal.
  rewrite code_points_ascii by done. f_equal.
  rewrite code_points_pad2 by done. f_equal.
  rewrite code_points_ascii by done. f_equal.
  by rewrite code_points_pad2 by done.
Qed.

Lemma match_pattern_isoformat y m d H M S :
  0 ≤ y ≤ 9999 → 1 ≤ m ≤ 12 → 1 ≤ d ≤ 31 →
  0 ≤ H ≤ 23 → 0 ≤ M ≤ 59 → 0 ≤ S ≤ 59 →
  head (Strptime.match_pattern iso_pattern
          (code_points (isoformat_Z (mk_datetime y m d H M S 0 (Some utc))))
          Strptime.found_default)
  = Some (Strptime.mk_found y m d H M S, []).
Proof.
  intros Hy Hm Hd HH HM HS.
  rewrite iso_pattern_groups, code_points_isoformat by lia.
  destruct (year_read y
              (code "-" :: code_points (pad2 m)
               ++ code "-" :: code_points (pad2 d)
               ++ code "T" :: code_points (pad2 H)
               ++ code ":" :: code_points (pad2 M)
               ++ code ":" :: code_points (pad2 S)
               ++ [code "Z"]) Hy)
    as [Hg Hint].
  eapply match_pattern_group_head; [exact Hg|]. rewrite Hint.
  apply match_pattern_lit_head.
  apply match_pattern_two_digits_head; [by apply month_read|].
  apply match_pattern_lit_head.
  apply match_pattern_two_digits_head; [by apply day_read|].
  apply match_pattern_lit_head.
  apply match_pattern_two_digits_head; [by apply hour_read|].
  apply match_pattern_lit_head.
  apply match_pattern_two_digits_head; [by apply minute_read|].
  apply match_pattern_lit_head.
  apply match_pattern_two_digits_head; [by apply second_read|].
  reflexivity.
Qed.

Lemma is_calendar_datetime_fields d :
  is_calendar_datetime d = true →
  1 ≤ dt_year d ≤ 9999 ∧ 1 ≤ dt_month d ≤ 12
  ∧ 1 ≤ dt_day d ≤ Calendar.days_in_month (dt_year d) (dt_month d)
  ∧ 0 ≤ dt_hour d ≤ 23 ∧ 0 ≤ dt_minute d ≤ 59 ∧ 0 ≤ dt_second d ≤ 59.
Proof.
  unfold is_calendar_datetime, datetime_new.
  destruct (_ && _) eqn:Hrange; [|done]. intros _.
  repeat match type of Hrange with
         | _ && _ = true => apply andb_true_iff in Hrange as [Hrange ?]
         end.
  repeat match goal with
         | H : (_ <=? _) = true |- _ => apply Z.leb_le in H
         end.
  lia.
Qed.

Lemma strptime_utc_isoformat d :
  is_calendar_datetime d = true →
  dt_microsecond d = 0 → dt_tzinfo d = Some utc →
  strptime_utc (VStr (isoformat_Z d)) = Ok d.
Proof.
  intros Hcal Hus Htz.
  destruct (is_calendar_datetime_fields d Hcal) as (Hy & Hm & Hd & HH & HM & HS).
  destruct d as [y m dd H M S us tz].
  cbn [dt_year dt_month dt_day dt_hour dt_minute dt_second dt_microsecond
       dt_tzinfo] in *.
  subst us tz.
  destruct (days_in_month_bound y m dd Hm Hd) as (Hd31 & _).
  assert (Hhead := match_pattern_isoformat y m dd H M S
                     ltac:(lia) Hm ltac:(lia) HH HM HS).
  unfold strptime_utc, Strptime.strptime. rewrite iso_pattern_compiled.
  destruct (Strptime.match_pattern iso_pattern _ _) as [|[r s] l];
    [done|].
  injection Hhead as -> ->.
  cbn [Strptime.year Strptime.month Strptime.day Strptime.hour
       Strptime.minute Strptime.second].
  by rewrite datetime_new_fields.
Qed.

(** X16.  The conversion of [fetch_price] accepts every timestamp in the
    padded form: the string [YYYY-MM-DDTHH:MM:SSZ] of an aware UTC datetime
    of the calendar, without microseconds, is converted to that datetime.
    So every instant [fetch_production] can stamp (an epoch integer from
    0001-01-01T00:00:00Z to 9999-12-31T23:59:59Z) is one [fetch_price]
    converts from its padded form to the same datetime. *)
Theorem strptime_utc_reads_isoformat (L : PyLib) :
  (∀ d, is_calendar_datetime d = true →
        dt_microsecond d = 0 → dt_tzinfo d = Some utc →
        strptime_utc (VStr (isoformat_Z d)) = Ok d)
  ∧ (∀ t, MIN_TIMESTAMP ≤ t ≤ MAX_TIMESTAMP →
       ∃ d, fromtimestamp_utc L (VInt t) = Ok d
            ∧ strptime_utc (VStr (isoformat_Z d)) = Ok d
            ∧ utc_instant d = Some (t * 1000000)).
Proof.
  split; [apply strptime_utc_isoformat|].
  intros t Ht.
  destruct (proj1 (fromtimestamp_int_cases t) Ht)
    as (d & Hd & Htz & Hus & Hcal).
  exists d. split; [done|]. split; [by apply strptime_utc_isoformat|].
  by apply fromtimestamp_int_instant.
Qed.

Lemma strptime_utc_reads_isoformat_witness :
  isoformat_Z (mk_datetime 2024 1 1 0 5 0 0 (Some utc))
  = "2024-01-01T00:05:00Z"
  ∧ strptime_utc
      (VStr (isoformat_Z (mk_datetime 2024 1 1 0 5 0 0 (Some utc))))
    = Ok (mk_datetime 2024 1 1 0 5 0 0 (Some utc)).
Proof.
  split; [reflexivity|].
  apply (proj1 (strptime_utc_reads_isoformat scenario_price_lib)
           (mk_datetime 2024 1 1 0 5 0 0 (Some utc)));
    reflexivity.
Defined.
